(** * Google Analytics Management API v3 reference sample

    A shallow embedding of [samples/analytics/management_v3_reference.py]:
    the hierarchy walker [traverse_hiearchy], the top-level [main] with its
    three exception handlers, the five collection formatters, the four goal
    detail formatters and the pagination printer.

    API responses are the values [json.loads] produces.  Printing and
    exceptions are threaded through a small writer/error monad: a
    computation yields the log of what it emitted together with either a
    result or the exception that stopped it. *)

From Stdlib Require Import String Ascii ZArith List Bool Lia DecimalString.
Import ListNotations.
Local Open Scope list_scope.
Local Open Scope string_scope.

Set Warnings "-register-all".

(** ** Python values *)

(** The values a decoded JSON document is made of.  A dict keeps its keys in
    insertion order, so it is an association list; [dict_lookup] returns the
    first binding of a key.  A float is carried by the two observations this
    program makes of one: the text [str()] gives for it and whether it is
    non-zero.  A [str] is a Rocq string, one character per element. *)
Inductive value : Type :=
| VNone
| VBool (b : bool)
| VInt (n : Z)
| VFloat (text : string) (nonzero : bool)
| VStr (s : string)
| VList (l : list value)
| VDict (d : list (string * value)).

(** Exceptions.  [HttpError] carries what the handler in [main] reads from
    it: [error.resp.status] and [error._get_reason()].  [OtherError] stands
    for any exception class the service may raise that this program never
    names. *)
Inductive exn : Type :=
| TypeError (msg : string)
| AttributeError (msg : string)
| IndexError (msg : string)
| KeyError (key : string)
| HttpError (status : Z) (reason : string)
| AccessTokenRefreshError
| OtherError (name : string).

Inductive outcome (A : Type) : Type :=
| Return (a : A)
| Raise (e : exn).
Arguments Return {A} a.
Arguments Raise {A} e.

(** ** The writer/error monad *)

Module PyM.

(** [M E A]: the events emitted, in order, then how the computation
    ended.  What was emitted before an exception stays emitted. *)
Definition M (E A : Type) : Type := (list E * outcome A)%type.

Definition ret {E A} (a : A) : M E A := ([], Return a).

Definition raise {E A} (e : exn) : M E A := ([], Raise e).

Definition emit {E} (e : E) : M E unit := ([e], Return tt).

Definition bind {E A B} (m : M E A) (f : A -> M E B) : M E B :=
  match m with
  | (log, Return a) => let (log', r) := f a in ((log ++ log')%list, r)
  | (log, Raise e) => (log, Raise e)
  end.

(** [try: m except handler]: a handler that answers [None] does not match
    the exception, which then propagates. *)
Definition try_except {E A} (m : M E A) (handler : exn -> option (M E A)) : M E A :=
  match m with
  | (log, Return a) => (log, Return a)
  | (log, Raise e) =>
      match handler e with
      | Some h => let (log', r) := h in ((log ++ log')%list, r)
      | None => (log, Raise e)
      end
  end.

(** Run a computation over one kind of event inside one over another. *)
Definition lift {E E' A} (inj : E -> E') (m : M E A) : M E' A :=
  (map inj (fst m), snd m).

Definition log {E A} (m : M E A) : list E := fst m.
Definition result {E A} (m : M E A) : outcome A := snd m.

End PyM.
Import PyM.

Notation "x <- m ;; k" := (bind m (fun x => k))
  (at level 61, m at next level, right associativity).
Notation "m ;; k" := (bind m (fun _ => k))
  (at level 61, right associativity).

(** ** Python built-ins the program relies on *)

Definition newline : string := String (ascii_of_nat 10) EmptyString.

Definition type_name (v : value) : string :=
  match v with
  | VNone => "NoneType"
  | VBool _ => "bool"
  | VInt _ => "int"
  | VFloat _ _ => "float"
  | VStr _ => "str"
  | VList _ => "list"
  | VDict _ => "dict"
  end.

(** [bool(v)]. *)
Definition truthy (v : value) : bool :=
  match v with
  | VNone => false
  | VBool b => b
  | VInt n => negb (Z.eqb n 0)
  | VFloat _ nz => nz
  | VStr s => negb (String.eqb s EmptyString)
  | VList l => match l with [] => false | _ => true end
  | VDict d => match d with [] => false | _ => true end
  end.

Fixpoint dict_lookup (k : string) (d : list (string * value)) : option value :=
  match d with
  | [] => None
  | (k', v) :: rest => if String.eqb k k' then Some v else dict_lookup k rest
  end.

(** [obj.get(key, default)]; only a dict has the method. *)
Definition py_get_default {E} (obj : value) (key : string) (default : value) : M E value :=
  match obj with
  | VDict d =>
      match dict_lookup key d with
      | Some v => ret v
      | None => ret default
      end
  | _ => raise (AttributeError ("'" ++ type_name obj ++ "' object has no attribute 'get'"))
  end.

(** [obj.get(key)]. *)
Definition py_get {E} (obj : value) (key : string) : M E value :=
  py_get_default obj key VNone.

(** The elements a [for] loop visits: the items of a list, the keys of a
    dict, the characters of a str. *)
Definition py_iter {E} (v : value) : M E (list value) :=
  match v with
  | VList l => ret l
  | VDict d => ret (map (fun kv => VStr (fst kv)) d)
  | VStr s => ret (map (fun c => VStr (String c EmptyString)) (list_ascii_of_string s))
  | _ => raise (TypeError ("'" ++ type_name v ++ "' object is not iterable"))
  end.

(** [v[0]]. *)
Definition py_getitem0 {E} (v : value) : M E value :=
  match v with
  | VList (x :: _) => ret x
  | VList [] => raise (IndexError "list index out of range")
  | VStr (String c _) => ret (VStr (String c EmptyString))
  | VStr EmptyString => raise (IndexError "string index out of range")
  | VDict _ => raise (KeyError "0")
  | _ => raise (TypeError ("'" ++ type_name v ++ "' object is not subscriptable"))
  end.

(** The iterations of a loop over the elements [l], in order, up to the
    first that raises. *)
Fixpoint for_each {E} (l : list value) (body : value -> M E unit) : M E unit :=
  match l with
  | [] => ret tt
  | x :: rest => body x ;; for_each rest body
  end.

(** [for x in iterable: body(x)]. *)
Definition for_in {E} (iterable : value) (body : value -> M E unit) : M E unit :=
  elements <- py_iter iterable ;;
  for_each elements body.

(** *** [str()] and [repr()] *)

Definition quote1 : ascii := ascii_of_nat 39.
Definition quote2 : ascii := ascii_of_nat 34.
Definition backslash : ascii := ascii_of_nat 92.

Definition hex_digit (n : nat) : ascii :=
  nth n (list_ascii_of_string "0123456789abcdef") "0"%char.

Definition char_in (c : ascii) (s : string) : bool :=
  existsb (Ascii.eqb c) (list_ascii_of_string s).

(** One character of [repr(s)] with [q] the enclosing quote.  Bytes from 128
    up are taken to belong to printable text and left as they are. *)
Definition repr_char (q c : ascii) : string :=
  let n := nat_of_ascii c in
  let one (a : ascii) := String a EmptyString in
  if Ascii.eqb c backslash then String backslash (one backslash)
  else if Ascii.eqb c q then String backslash (one q)
  else if Nat.eqb n 10 then String backslash "n"
  else if Nat.eqb n 13 then String backslash "r"
  else if Nat.eqb n 9 then String backslash "t"
  else if Nat.ltb n 32 || Nat.eqb n 127
       then String backslash (String "x" (String (hex_digit (n / 16)) (one (hex_digit (n mod 16)))))
  else one c.

(** [repr(s)] for a str: single quotes, unless the text holds a single quote
    and no double quote. *)
Definition repr_str (s : string) : string :=
  let q := if char_in quote1 s && negb (char_in quote2 s) then quote2 else quote1 in
  String q (String.concat EmptyString (map (repr_char q) (list_ascii_of_string s)))
    ++ String q EmptyString.

Fixpoint py_repr (v : value) : string :=
  match v with
  | VNone => "None"
  | VBool true => "True"
  | VBool false => "False"
  | VInt n => NilZero.string_of_int (Z.to_int n)
  | VFloat text _ => text
  | VStr s => repr_str s
  | VList l => "[" ++ String.concat ", " (map py_repr l) ++ "]"
  | VDict d =>
      "{" ++ String.concat ", "
               (map (fun kv => match kv with
                               | (k, x) => repr_str k ++ ": " ++ py_repr x
                               end) d) ++ "}"
  end.

(** [str(v)], which is what an f-string field [{v}] renders. *)
Definition py_str (v : value) : string :=
  match v with
  | VStr s => s
  | _ => py_repr v
  end.

(** [x == s] for a str literal [s]. *)
Definition eq_str (x : value) (s : string) : bool :=
  match x with
  | VStr t => String.eqb t s
  | _ => false
  end.

(** ** Standard output *)

(** A formatter's log is the text of each [print] call, in order. *)
Definition P (A : Type) : Type := M string A.

(** [print(s)]. *)
Definition print (s : string) : P unit := emit s.

(** [print()]. *)
Definition print_blank : P unit := emit EmptyString.

(** [print(f"<label>{obj.get(key)}")]: the lookup runs first and may raise. *)
Definition print_field (label : string) (obj : value) (key : string) : P unit :=
  v <- py_get obj key ;;
  print (label ++ py_str v).

(** The characters written for a log: every [print] ends its text with a
    newline. *)
Definition stdout (lines : list string) : string :=
  String.concat EmptyString (map (fun s => s ++ newline) lines).

(** ** Pagination printer *)

Definition print_pagination_info (management_response : value) : P unit :=
  print_field "Items per page = " management_response "itemsPerPage" ;;
  print_field "Total Results  = " management_response "totalResults" ;;
  print_field "Start Index    = " management_response "startIndex" ;;
  previousLink <- py_get management_response "previousLink" ;;
  (if truthy previousLink
   then print_field "Previous Link  = " management_response "previousLink"
   else ret tt) ;;
  nextLink <- py_get management_response "nextLink" ;;
  (if truthy nextLink
   then print_field "Next Link      = " management_response "nextLink"
   else ret tt).

(** ** Collection formatters *)

(** The body of the [for account in ...] loop of [print_accounts]. *)
Definition print_accounts_body (account : value) : P unit :=
  print_field "Account ID      = " account "id" ;;
  print_field "Kind            = " account "kind" ;;
  print_field "Self Link       = " account "selfLink" ;;
  print_field "Account Name    = " account "name" ;;
  print_field "Created         = " account "created" ;;
  print_field "Updated         = " account "updated" ;;
  child_link <- py_get account "childLink" ;;
  print_field "Child link href = " child_link "href" ;;
  print_field "Child link type = " child_link "type" ;;
  print_blank.

Definition print_accounts (accounts_response : value) : P unit :=
  print "------ Account Collection -------" ;;
  print_pagination_info accounts_response ;;
  print_blank ;;
  items <- py_get_default accounts_response "items" (VList []) ;;
  for_in items print_accounts_body ;;
  items <- py_get accounts_response "items" ;;
  (if negb (truthy items)
   then print ("No accounts found." ++ newline)
   else ret tt).

(** The body of the loop of [print_webproperties]. *)
Definition print_webproperties_body (webproperty : value) : P unit :=
  print_field "Kind               = " webproperty "kind" ;;
  print_field "Account ID         = " webproperty "accountId" ;;
  print_field "Web Property ID    = " webproperty "id" ;;
  print_field "Internal Web Property ID = " webproperty "internalWebPropertyId" ;;
  print_field "Website URL        = " webproperty "websiteUrl" ;;
  print_field "Created            = " webproperty "created" ;;
  print_field "Updated            = " webproperty "updated" ;;
  print_field "Self Link          = " webproperty "selfLink" ;;
  parent_link <- py_get webproperty "parentLink" ;;
  print_field "Parent link href   = " parent_link "href" ;;
  print_field "Parent link type   = " parent_link "type" ;;
  child_link <- py_get webproperty "childLink" ;;
  print_field "Child link href    = " child_link "href" ;;
  print_field "Child link type    = " child_link "type" ;;
  print_blank.

Definition print_webproperties (webproperties_response : value) : P unit :=
  print "------ Web Properties Collection -------" ;;
  print_pagination_info webproperties_response ;;
  print_blank ;;
  items <- py_get_default webproperties_response "items" (VList []) ;;
  for_in items print_webproperties_body ;;
  items <- py_get webproperties_response "items" ;;
  (if negb (truthy items)
   then print ("No webproperties found." ++ newline)
   else ret tt).

(** The body of the loop of [print_profiles]. *)
Definition print_profiles_body (profile : value) : P unit :=
  print_field "Kind                      = " profile "kind" ;;
  print_field "Account ID                = " profile "accountId" ;;
  print_field "Web Property ID           = " profile "webPropertyId" ;;
  print_field "Internal Web Property ID = " profile "internalWebPropertyId" ;;
  print_field "Profile ID                = " profile "id" ;;
  print_field "Profile Name              = " profile "name" ;;
  print_field "Currency         = " profile "currency" ;;
  print_field "Timezone         = " profile "timezone" ;;
  print_field "Default Page     = " profile "defaultPage" ;;
  print_field "Exclude Query Parameters        = " profile "excludeQueryParameters" ;;
  print_field "Site Search Category Parameters = " profile "siteSearchCategoryParameters" ;;
  print_field "Site Search Query Parameters    = " profile "siteSearchQueryParameters" ;;
  print_field "Created          = " profile "created" ;;
  print_field "Updated          = " profile "updated" ;;
  print_field "Self Link        = " profile "selfLink" ;;
  parent_link <- py_get profile "parentLink" ;;
  print_field "Parent link href = " parent_link "href" ;;
  print_field "Parent link type = " parent_link "type" ;;
  child_link <- py_get profile "childLink" ;;
  print_field "Child link href  = " child_link "href" ;;
  print_field "Child link type  = " child_link "type" ;;
  print_blank.

Definition print_profiles (profiles_response : value) : P unit :=
  print "------ Profiles Collection -------" ;;
  print_pagination_info profiles_response ;;
  print_blank ;;
  items <- py_get_default profiles_response "items" (VList []) ;;
  for_in items print_profiles_body ;;
  items <- py_get profiles_response "items" ;;
  (if negb (truthy items)
   then print ("No profiles found." ++ newline)
   else ret tt).

(** ** Goal detail formatters *)

(** The body of the loop over the steps of a URL destination goal. *)
Definition print_goal_step (goal_step : value) : P unit :=
  print_field "Step Number  = " goal_step "number" ;;
  print_field "Step Name    = " goal_step "name" ;;
  print_field "Step URL     = " goal_step "url".

Definition print_url_destination_goal_details (goal_details : value) : P unit :=
  print "------ Url Destination Goal -------" ;;
  print_field "Goal URL            = " goal_details "url" ;;
  print_field "Case Sensitive      = " goal_details "caseSensitive" ;;
  print_field "Match Type          = " goal_details "matchType" ;;
  print_field "First Step Required = " goal_details "firstStepRequired" ;;
  print "------ Url Destination Goal Steps -------" ;;
  steps <- py_get_default goal_details "steps" (VList []) ;;
  for_in steps print_goal_step ;;
  steps <- py_get goal_details "steps" ;;
  (if negb (truthy steps)
   then print "No Steps Configured"
   else ret tt).

Definition print_visit_time_on_site_goal_details (goal_details : value) : P unit :=
  print "------ Visit Time On Site Goal -------" ;;
  print_field "Comparison Type  = " goal_details "comparisonType" ;;
  print_field "comparison Value = " goal_details "comparisonValue".

Definition print_visit_num_pages_goal_details (goal_details : value) : P unit :=
  print "------ Visit Num Pages Goal -------" ;;
  print_field "Comparison Type  = " goal_details "comparisonType" ;;
  print_field "comparison Value = " goal_details "comparisonValue".

(** [event_type in ('CATEGORY', 'ACTION', 'LABEL')]. *)
Definition in_match_types (event_type : value) : bool :=
  eq_str event_type "CATEGORY" || eq_str event_type "ACTION" || eq_str event_type "LABEL".

(** The body of the loop over the conditions of an event goal. *)
Definition print_event_condition (event_condition : value) : P unit :=
  event_type <- py_get event_condition "type" ;;
  print ("Type             = " ++ py_str event_type) ;;
  if in_match_types event_type
  then
    print_field "Match Type       = " event_condition "matchType" ;;
    print_field "Expression       = " event_condition "expression"
  else
    print_field "Comparison Type  = " event_condition "comparisonType" ;;
    print_field "Comparison Value = " event_condition "comparisonValue".

Definition print_event_goal_details (goal_details : value) : P unit :=
  print "------ Event Goal -------" ;;
  print_field "Use Event Value  = " goal_details "useEventValue" ;;
  conditions <- py_get_default goal_details "eventConditions" (VList []) ;;
  for_in conditions print_event_condition.

(** ** Goals and segments *)

(** The [if / elif] chain of [print_goals] that picks a detail formatter. *)
Definition print_goal_details (goal : value) : P unit :=
  urlDestinationDetails <- py_get goal "urlDestinationDetails" ;;
  if truthy urlDestinationDetails
  then
    details <- py_get goal "urlDestinationDetails" ;;
    print_url_destination_goal_details details
  else
    visitTimeOnSiteDetails <- py_get goal "visitTimeOnSiteDetails" ;;
    if truthy visitTimeOnSiteDetails
    then
      details <- py_get goal "visitTimeOnSiteDetails" ;;
      print_visit_time_on_site_goal_details details
    else
      visitNumPagesDetails <- py_get goal "visitNumPagesDetails" ;;
      if truthy visitNumPagesDetails
      then
        details <- py_get goal "visitNumPagesDetails" ;;
        print_visit_num_pages_goal_details details
      else
        eventDetails <- py_get goal "eventDetails" ;;
        if truthy eventDetails
        then
          details <- py_get goal "eventDetails" ;;
          print_event_goal_details details
        else ret tt.

(** The lines of the loop of [print_goals] that come before the details. *)
Definition print_goals_fields (goal : value) : P unit :=
  print_field "Goal ID     = " goal "id" ;;
  print_field "Kind        = " goal "kind" ;;
  print_field "Self Link        = " goal "selfLink" ;;
  print_field "Account ID               = " goal "accountId" ;;
  print_field "Web Property ID          = " goal "webPropertyId" ;;
  print_field "Internal Web Property ID = " goal "internalWebPropertyId" ;;
  print_field "Profile ID               = " goal "profileId" ;;
  print_field "Goal Name   = " goal "name" ;;
  print_field "Goal Value  = " goal "value" ;;
  print_field "Goal Active = " goal "active" ;;
  print_field "Goal Type   = " goal "type" ;;
  print_field "Created     = " goal "created" ;;
  print_field "Updated     = " goal "updated" ;;
  parent_link <- py_get goal "parentLink" ;;
  print_field "Parent link href = " parent_link "href" ;;
  print_field "Parent link type = " parent_link "type".

(** The body of the loop of [print_goals]. *)
Definition print_goals_body (goal : value) : P unit :=
  print_goals_fields goal ;;
  print_goal_details goal ;;
  print_blank.

Definition print_goals (goals_response : value) : P unit :=
  print "------ Goals Collection -------" ;;
  print_pagination_info goals_response ;;
  print_blank ;;
  items <- py_get_default goals_response "items" (VList []) ;;
  for_in items print_goals_body ;;
  items <- py_get goals_response "items" ;;
  (if negb (truthy items)
   then print ("No goals found." ++ newline)
   else ret tt).

(** The body of the loop of [print_segments]. *)
Definition print_segments_body (segment : value) : P unit :=
  print_field "Segment ID = " segment "id" ;;
  print_field "Kind       = " segment "kind" ;;
  print_field "Self Link  = " segment "selfLink" ;;
  print_field "Name       = " segment "name" ;;
  print_field "Definition = " segment "definition" ;;
  print_field "Created    = " segment "created" ;;
  print_field "Updated    = " segment "updated" ;;
  print_blank.

Definition print_segments (segments_response : value) : P unit :=
  print "------ Segments Collection -------" ;;
  print_pagination_info segments_response ;;
  print_blank ;;
  items <- py_get_default segments_response "items" (VList []) ;;
  for_in items print_segments_body.

(** ** The service and the hierarchy walker *)

(** The five list calls, with the keyword arguments each is given. *)
Inductive request : Type :=
| AccountsList
| WebpropertiesList (accountId : value)
| ProfilesList (accountId webPropertyId : value)
| GoalsList (accountId webPropertyId profileId : value)
| SegmentsList.

(** The service object: what building and executing each list request
    yields, a decoded response or an exception.  The walker makes each call
    at most once, so one answer per call and argument describes any run. *)
Record Service : Type := {
  accounts_list : outcome value;
  webproperties_list : value -> outcome value;
  profiles_list : value -> value -> outcome value;
  goals_list : value -> value -> value -> outcome value;
  segments_list : outcome value
}.

Definition respond (service : Service) (rq : request) : outcome value :=
  match rq with
  | AccountsList => accounts_list service
  | WebpropertiesList a => webproperties_list service a
  | ProfilesList a w => profiles_list service a w
  | GoalsList a w p => goals_list service a w p
  | SegmentsList => segments_list service
  end.

(** What a run of the program does that can be seen from outside. *)
Inductive event : Type :=
| Printed (text : string)
| Called (rq : request) (answer : outcome value).

(** [service.management().<collection>().list(...).execute()]. *)
Definition execute (service : Service) (rq : request) : M event value :=
  ([Called rq (respond service rq)], respond service rq).

(** A formatter run by the walker. *)
Definition show {A} (m : P A) : M event A := lift Printed m.

Definition traverse_hiearchy (service : Service) : M event unit :=
  accounts <- execute service AccountsList ;;
  show (print_accounts accounts) ;;
  items <- py_get accounts "items" ;;
  (if truthy items
   then
     items <- py_get accounts "items" ;;
     first <- py_getitem0 items ;;
     firstAccountId <- py_get first "id" ;;
     webproperties <- execute service (WebpropertiesList firstAccountId) ;;
     show (print_webproperties webproperties) ;;
     items <- py_get webproperties "items" ;;
     if truthy items
     then
       items <- py_get webproperties "items" ;;
       first <- py_getitem0 items ;;
       firstWebpropertyId <- py_get first "id" ;;
       profiles <- execute service (ProfilesList firstAccountId firstWebpropertyId) ;;
       show (print_profiles profiles) ;;
       items <- py_get profiles "items" ;;
       if truthy items
       then
         items <- py_get profiles "items" ;;
         first <- py_getitem0 items ;;
         firstProfileId <- py_get first "id" ;;
         goals <- execute service
                    (GoalsList firstAccountId firstWebpropertyId firstProfileId) ;;
         show (print_goals goals)
       else ret tt
     else ret tt
   else ret tt) ;;
  segments <- execute service SegmentsList ;;
  show (print_segments segments).

(** The text each [except] clause of [main] prints. *)
Definition diagnostic (error : exn) : option string :=
  match error with
  | TypeError msg =>
      Some ("There was an error in constructing your query : " ++ msg)
  | HttpError status reason =>
      Some ("Arg, there was an API error : " ++ py_str (VInt status) ++ " : " ++ reason)
  | AccessTokenRefreshError =>
      Some ("The credentials have been revoked or expired, please re-run"
              ++ "the application to re-authorize")
  | _ => None
  end.

(** [main], from the point where [sample_tools.init] has built the
    service. *)
Definition main (service : Service) : M event unit :=
  try_except (traverse_hiearchy service)
    (fun error =>
       match diagnostic error with
       | Some text => Some (show (print text))
       | None => None
       end).

(** * Verification *)

(** ** Reading a dict without effects *)

(** The value of [d.get(key)] for a dict [d]. *)
Definition dict_get (d : list (string * value)) (key : string) : value :=
  match dict_lookup key d with
  | Some v => v
  | None => VNone
  end.

(** The line [print_field label d key] prints for a dict [d]. *)
Definition labelled (label : string) (d : list (string * value)) (key : string) : string :=
  label ++ py_str (dict_get d key).

(** ** Laws of the monad *)

Section MonadLaws.
Context {E : Type}.

Lemma bind_ret_l {A B} (a : A) (f : A -> M E B) : bind (ret a) f = f a.
Proof. unfold bind, ret. destruct (f a); reflexivity. Qed.

Lemma bind_ret_r {A} (m : M E A) : bind m ret = m.
Proof.
  destruct m as [l [a | e]]; unfold bind, ret; simpl; [rewrite app_nil_r|]; reflexivity.
Qed.

Lemma bind_assoc {A B C} (m : M E A) (f : A -> M E B) (g : B -> M E C) :
  bind (bind m f) g = bind m (fun x => bind (f x) g).
Proof.
  destruct m as [l [a | e]]; simpl; [|reflexivity].
  destruct (f a) as [l' [b | e]]; simpl; [|reflexivity].
  destruct (g b) as [l'' r]. rewrite app_assoc. reflexivity.
Qed.

Lemma bind_return {A B} (l : list E) (a : A) (f : A -> M E B) :
  bind (l, Return a) f = ((l ++ log (f a))%list, result (f a)).
Proof. unfold bind, log, result. destruct (f a); reflexivity. Qed.

(** [m] with [l] emitted before it. *)
Definition after {A} (l : list E) (m : M E A) : M E A :=
  ((l ++ log m)%list, result m).

Lemma bind_after {A B} (l : list E) (a : A) (f : A -> M E B) :
  bind (l, Return a) f = after l (f a).
Proof. apply bind_return. Qed.

Lemma bind_raise {A B} (l : list E) (e : exn) (f : A -> M E B) :
  bind (l, Raise e) f = (l, Raise e).
Proof. reflexivity. Qed.


Lemma result_bind_return {A B} (m : M E A) (f : A -> M E B) (a : A) :
  result m = Return a -> result (bind m f) = result (f a).
Proof.
  intros H. destruct m as [l r]. cbn [result snd] in H. subst r.
  rewrite bind_return. reflexivity.
Qed.

Lemma bind_raises {A B} (m : M E A) (f : A -> M E B) (e : exn) :
  result m = Raise e -> bind m f = (log m, Raise e).
Proof. intros H. destruct m as [l r]. cbn [result snd] in H. subst r. reflexivity. Qed.

(** An event of [bind m f] was emitted by [m], or by [f] after [m]
    returned. *)
Lemma in_log_bind {A B} (m : M E A) (f : A -> M E B) (ev : E) :
  In ev (log (bind m f)) ->
  In ev (log m) \/ exists a, result m = Return a /\ In ev (log (f a)).
Proof.
  destruct m as [l [a | e]].
  - rewrite bind_return. cbn [log result fst snd]. rewrite in_app_iff.
    intros [H | H]; [left; exact H | right; exists a; split; [reflexivity | exact H]].
  - intros H; left; exact H.
Qed.


Lemma py_get_dict (d : list (string * value)) (key : string) :
  @py_get E (VDict d) key = ret (dict_get d key).
Proof. unfold py_get, py_get_default, dict_get. destruct (dict_lookup key d); reflexivity. Qed.

Lemma log_py_get (obj : value) (key : string) : log (@py_get E obj key) = [].
Proof.
  unfold py_get, py_get_default.
  destruct obj; try reflexivity. destruct (dict_lookup key d); reflexivity.
Qed.

Lemma py_get_returns (obj : value) (key : string) (v : value) :
  result (@py_get E obj key) = Return v ->
  exists d, obj = VDict d /\ v = dict_get d key.
Proof.
  destruct obj; try discriminate.
  rewrite py_get_dict. simpl. intros H. injection H as <-. exists d. split; reflexivity.
Qed.

Lemma log_py_getitem0 (v : value) : log (@py_getitem0 E v) = [].
Proof. destruct v as [ | | | | [|] | [|] | ]; reflexivity. Qed.

End MonadLaws.

Lemma print_field_dict (label : string) (d : list (string * value)) (key : string) :
  print_field label (VDict d) key = ([labelled label d key], Return tt).
Proof. unfold print_field. rewrite py_get_dict, bind_ret_l. reflexivity. Qed.

Lemma print_field_raises (label : string) (obj : value) (key : string) :
  (forall d, obj <> VDict d) ->
  print_field label obj key
  = ([], Raise (AttributeError ("'" ++ type_name obj ++ "' object has no attribute 'get'"))).
Proof.
  intros H. destruct obj; try reflexivity. exfalso. exact (H d eq_refl).
Qed.

(** ** Loops *)

Section Loops.
Context {E : Type}.

Lemma py_get_default_dict (d : list (string * value)) (key : string) (default : value) :
  @py_get_default E (VDict d) key default
  = ret (match dict_lookup key d with Some v => v | None => default end).
Proof. unfold py_get_default. destruct (dict_lookup key d); reflexivity. Qed.

Lemma for_in_list (l : list value) (body : value -> M E unit) :
  for_in (VList l) body = for_each l body.
Proof. unfold for_in, py_iter. rewrite bind_ret_l. reflexivity. Qed.

Lemma for_each_returns (l : list value) (body : value -> M E unit) :
  (forall x, In x l -> result (body x) = Return tt) ->
  result (for_each l body) = Return tt.
Proof.
  induction l as [| x rest IH]; intros H; [reflexivity|].
  cbn [for_each]. rewrite (result_bind_return _ _ tt) by (apply H; left; reflexivity).
  apply IH. intros y Hy. apply H. right. exact Hy.
Qed.

(** A loop stops at the first element whose body raises. *)
Lemma for_each_raises_first (x : value) (rest : list value) (body : value -> M E unit)
      (e : exn) :
  result (body x) = Raise e ->
  for_each (x :: rest) body = (log (body x), Raise e).
Proof. intros H. cbn [for_each]. apply bind_raises. exact H. Qed.

(** A loop over objects whose body always returns emits the lines of
    each object in turn. *)
Lemma for_each_objects (lines : list (string * value) -> list E)
      (body : value -> M E unit) (objects : list (list (string * value))) :
  (forall c, body (VDict c) = (lines c, Return tt)) ->
  for_each (map VDict objects) body = (flat_map lines objects, Return tt).
Proof.
  intros B. induction objects as [| c rest IH]; [reflexivity|].
  cbn [map for_each flat_map]. rewrite B, bind_return, IH. reflexivity.
Qed.

(** Every event of a loop was emitted by the body on some element. *)
Lemma in_log_for_each (l : list value) (body : value -> M E unit) (ev : E) :
  In ev (log (for_each l body)) -> exists x, In x l /\ In ev (log (body x)).
Proof.
  induction l as [| x rest IH]; [intros [] |].
  cbn [for_each]. intros H. apply in_log_bind in H. destruct H as [H | [u [_ H]]].
  - exists x. split; [left; reflexivity | exact H].
  - destruct (IH H) as [y [Hy He]]. exists y. split; [right; exact Hy | exact He].
Qed.

Lemma in_log_for_in (iterable : value) (body : value -> M E unit) (ev : E) :
  In ev (log (for_in iterable body)) -> exists x, In ev (log (body x)).
Proof.
  unfold for_in. intros H. apply in_log_bind in H. destruct H as [H | [l [_ H]]].
  - destruct iterable; destruct H.
  - apply in_log_for_each in H. destruct H as [x [_ H]]. exists x. exact H.
Qed.

End Loops.

(** ** Pagination *)

(** The lines of the pagination block, with [shown] deciding from the
    binding of a link whether its line appears. *)
Definition pagination_lines (shown : option value -> bool) (d : list (string * value))
  : list string :=
  ([ labelled "Items per page = " d "itemsPerPage";
     labelled "Total Results  = " d "totalResults";
     labelled "Start Index    = " d "startIndex" ]
   ++ (if shown (dict_lookup "previousLink" d)
       then [labelled "Previous Link  = " d "previousLink"] else [])
   ++ (if shown (dict_lookup "nextLink" d)
       then [labelled "Next Link      = " d "nextLink"] else []))%list.

(** A key is present when the dict binds it. *)
Definition present (binding : option value) : bool :=
  match binding with
  | Some _ => true
  | None => false
  end.

(** A key is set when the dict binds it to something other than null. *)
Definition non_null (binding : option value) : bool :=
  match binding with
  | Some VNone | None => false
  | Some _ => true
  end.

(** What the code tests: the bound value is truthy. *)
Definition set_and_truthy (binding : option value) : bool :=
  match binding with
  | Some v => truthy v
  | None => false
  end.

Lemma truthy_dict_get (d : list (string * value)) (key : string) :
  truthy (dict_get d key) = set_and_truthy (dict_lookup key d).
Proof. unfold dict_get, set_and_truthy. destruct (dict_lookup key d); reflexivity. Qed.

Lemma print_pagination_info_dict (d : list (string * value)) :
  print_pagination_info (VDict d) = (pagination_lines set_and_truthy d, Return tt).
Proof.
  unfold print_pagination_info, pagination_lines.
  rewrite !print_field_dict, !py_get_dict.
  rewrite !bind_return, !bind_ret_l, !truthy_dict_get.
  destruct (set_and_truthy (dict_lookup "previousLink" d));
    destruct (set_and_truthy (dict_lookup "nextLink" d)); reflexivity.
Qed.

(** C7 (amended): on every collection response the pagination printer
    prints itemsPerPage, totalResults and startIndex unconditionally and in
    that order, then a previousLink line exactly when previousLink is bound
    to a truthy value, then a nextLink line exactly when nextLink is bound
    to a truthy value; it raises nothing. *)
Theorem pagination_links_shown_when_truthy (d : list (string * value)) :
  print_pagination_info (VDict d) = (pagination_lines set_and_truthy d, Return tt).
Proof. exact (print_pagination_info_dict d). Qed.

(** C7 as stated fails: a response whose previousLink is present (and not
    null) but is the empty string gets no previousLink line. *)
Lemma pagination_present_link_not_shown :
  let d := [("previousLink", VStr EmptyString)] in
  present (dict_lookup "previousLink" d) = true
  /\ non_null (dict_lookup "previousLink" d) = true
  /\ log (print_pagination_info (VDict d))
     = [ "Items per page = None"; "Total Results  = None"; "Start Index    = None" ]
  /\ log (print_pagination_info (VDict d)) <> pagination_lines present d
  /\ log (print_pagination_info (VDict d)) <> pagination_lines non_null d.
Proof.
  cbv zeta. repeat split; try reflexivity; vm_compute; discriminate.
Qed.

(** ** Event conditions *)

Lemma eq_str_true (x : value) (s : string) : eq_str x s = true <-> x = VStr s.
Proof.
  destruct x; simpl; try (split; [discriminate | intros H; discriminate H]).
  rewrite String.eqb_eq. split; [intros -> | intros H; injection H as ->]; reflexivity.
Qed.

Lemma in_match_types_true (x : value) :
  in_match_types x = true
  <-> x = VStr "CATEGORY" \/ x = VStr "ACTION" \/ x = VStr "LABEL".
Proof.
  unfold in_match_types. rewrite !orb_true_iff, !eq_str_true. tauto.
Qed.

Lemma print_event_condition_dict (d : list (string * value)) :
  print_event_condition (VDict d)
  = (labelled "Type             = " d "type"
       :: (if in_match_types (dict_get d "type")
           then [ labelled "Match Type       = " d "matchType";
                  labelled "Expression       = " d "expression" ]
           else [ labelled "Comparison Type  = " d "comparisonType";
                  labelled "Comparison Value = " d "comparisonValue" ]),
     Return tt).
Proof.
  unfold print_event_condition. rewrite py_get_dict, bind_ret_l.
  destruct (in_match_types (dict_get d "type")); rewrite !print_field_dict; reflexivity.
Qed.

(** Whether a printed line carries the given label. *)
Definition has_label (label line : string) : bool := String.prefix label line.

(** C8: an event condition whose type is CATEGORY, ACTION or LABEL prints
    its type, matchType and expression, and no comparisonType or
    comparisonValue line; with any other type (VALUE, anything else, or no
    type at all) it prints its type, comparisonType and comparisonValue, and
    no matchType or expression line.  The event formatter prints, after its
    header and useEventValue, these lines for each condition in the order
    received. *)
Theorem event_condition_lines_by_type :
  (forall c,
      dict_get c "type" = VStr "CATEGORY" \/ dict_get c "type" = VStr "ACTION"
      \/ dict_get c "type" = VStr "LABEL" ->
      print_event_condition (VDict c)
      = ([ labelled "Type             = " c "type";
           labelled "Match Type       = " c "matchType";
           labelled "Expression       = " c "expression" ], Return tt)
      /\ forallb (fun line => negb (has_label "Comparison" line))
                 (log (print_event_condition (VDict c))) = true)
  /\ (forall c,
         dict_get c "type" <> VStr "CATEGORY" -> dict_get c "type" <> VStr "ACTION" ->
         dict_get c "type" <> VStr "LABEL" ->
         print_event_condition (VDict c)
         = ([ labelled "Type             = " c "type";
              labelled "Comparison Type  = " c "comparisonType";
              labelled "Comparison Value = " c "comparisonValue" ], Return tt)
         /\ forallb (fun line => negb (has_label "Match Type" line
                                       || has_label "Expression" line))
                    (log (print_event_condition (VDict c))) = true)
  /\ (forall details conditions,
         dict_lookup "eventConditions" details = Some (VList (map VDict conditions)) ->
         print_event_goal_details (VDict details)
         = ("------ Event Goal -------"
              :: labelled "Use Event Value  = " details "useEventValue"
              :: flat_map (fun c => log (print_event_condition (VDict c))) conditions,
            Return tt)).
Proof.
  split; [| split].
  - intros c H. apply in_match_types_true in H.
    rewrite print_event_condition_dict, H. split; reflexivity.
  - intros c H1 H2 H3. rewrite print_event_condition_dict.
    destruct (in_match_types (dict_get c "type")) eqn:T; [| split; reflexivity].
    apply in_match_types_true in T. tauto.
  - intros details conditions L. unfold print_event_goal_details, print, emit.
    rewrite print_field_dict, py_get_default_dict, L, bind_ret_l, for_in_list.
    rewrite (for_each_objects (fun c => log (print_event_condition (VDict c))))
      by (intros c; rewrite print_event_condition_dict; reflexivity).
    reflexivity.
Qed.

(** C8 at a LABEL condition, at a VALUE condition, and at an event goal
    with both. *)
Lemma event_condition_lines_by_type_witness :
  print_event_condition
    (VDict [("type", VStr "LABEL"); ("matchType", VStr "EXACT"); ("expression", VStr "buy")])
  = ([ "Type             = LABEL"; "Match Type       = EXACT"; "Expression       = buy" ],
     Return tt)
  /\ print_event_condition
       (VDict [("type", VStr "VALUE"); ("comparisonType", VStr "EQUAL");
               ("comparisonValue", VInt 5)])
     = ([ "Type             = VALUE"; "Comparison Type  = EQUAL"; "Comparison Value = 5" ],
        Return tt)
  /\ print_event_goal_details
       (VDict [ ("useEventValue", VBool true);
                ("eventConditions",
                 VList [ VDict [("type", VStr "LABEL"); ("matchType", VStr "EXACT");
                                ("expression", VStr "buy")];
                         VDict [("type", VStr "VALUE"); ("comparisonType", VStr "EQUAL");
                                ("comparisonValue", VInt 5)] ]) ])
     = ([ "------ Event Goal -------"; "Use Event Value  = True";
          "Type             = LABEL"; "Match Type       = EXACT"; "Expression       = buy";
          "Type             = VALUE"; "Comparison Type  = EQUAL"; "Comparison Value = 5" ],
        Return tt).
Proof.
  split; [| split].
  - apply (proj1 event_condition_lines_by_type
             [("type", VStr "LABEL"); ("matchType", VStr "EXACT"); ("expression", VStr "buy")]).
    right; right; reflexivity.
  - apply (proj1 (proj2 event_condition_lines_by_type)
             [("type", VStr "VALUE"); ("comparisonType", VStr "EQUAL");
              ("comparisonValue", VInt 5)]); discriminate.
  - rewrite (proj2 (proj2 event_condition_lines_by_type)
               [ ("useEventValue", VBool true);
                 ("eventConditions",
                  VList [ VDict [("type", VStr "LABEL"); ("matchType", VStr "EXACT");
                                 ("expression", VStr "buy")];
                          VDict [("type", VStr "VALUE"); ("comparisonType", VStr "EQUAL");
                                 ("comparisonValue", VInt 5)] ]) ]
               [ [("type", VStr "LABEL"); ("matchType", VStr "EXACT");
                  ("expression", VStr "buy")];
                 [("type", VStr "VALUE"); ("comparisonType", VStr "EQUAL");
                  ("comparisonValue", VInt 5)] ]
               eq_refl).
    reflexivity.
Defined.

(** ** Goal detail dispatch *)

Inductive detail_kind : Type :=
| UrlDestination
| VisitTimeOnSite
| VisitNumPages
| Event.

Definition detail_key (kind : detail_kind) : string :=
  match kind with
  | UrlDestination => "urlDestinationDetails"
  | VisitTimeOnSite => "visitTimeOnSiteDetails"
  | VisitNumPages => "visitNumPagesDetails"
  | Event => "eventDetails"
  end.

Definition detail_formatter (kind : detail_kind) : value -> P unit :=
  match kind with
  | UrlDestination => print_url_destination_goal_details
  | VisitTimeOnSite => print_visit_time_on_site_goal_details
  | VisitNumPages => print_visit_num_pages_goal_details
  | Event => print_event_goal_details
  end.

(** The fixed priority order of the dispatch. *)
Definition priority : list detail_kind :=
  [UrlDestination; VisitTimeOnSite; VisitNumPages; Event].

(** The first detail kind, in priority order, whose field passes the test
    [chosen]. *)
Definition select_detail (chosen : option value -> bool) (d : list (string * value))
  : option detail_kind :=
  find (fun kind => chosen (dict_lookup (detail_key kind) d)) priority.

(** Run the one detail formatter selected, or none. *)
Definition dispatch (chosen : option value -> bool) (d : list (string * value)) : P unit :=
  match select_detail chosen d with
  | Some kind => detail_formatter kind (dict_get d (detail_key kind))
  | None => ret tt
  end.

Lemma print_goal_details_dispatch (d : list (string * value)) :
  print_goal_details (VDict d) = dispatch set_and_truthy d.
Proof.
  unfold print_goal_details, dispatch, select_detail, priority, find.
  rewrite !py_get_dict, !bind_ret_l, !truthy_dict_get.
  cbn [detail_key].
  destruct (set_and_truthy (dict_lookup "urlDestinationDetails" d)); [reflexivity|].
  destruct (set_and_truthy (dict_lookup "visitTimeOnSiteDetails" d)); [reflexivity|].
  destruct (set_and_truthy (dict_lookup "visitNumPagesDetails" d)); [reflexivity|].
  destruct (set_and_truthy (dict_lookup "eventDetails" d)); reflexivity.
Qed.

(** C3 (amended): for every goal the formatter runs zero or one detail
    formatter: the one of the first detail field, in the order
    UrlDestination, VisitTimeOnSite, VisitNumPages, Event, whose value is
    truthy (bound to a value that is not null, false, zero or empty), on
    that value; none when no detail field is truthy.  The loop body is the goal's field lines, that
    one detail section, and a blank line. *)
Theorem goal_details_first_truthy (d : list (string * value)) :
  print_goal_details (VDict d) = dispatch set_and_truthy d
  /\ print_goals_body (VDict d)
     = (print_goals_fields (VDict d) ;; dispatch set_and_truthy d ;; print_blank).
Proof.
  unfold print_goals_body. rewrite print_goal_details_dispatch. split; reflexivity.
Qed.

(** C3 as stated fails: with urlDestinationDetails present but empty and
    visitTimeOnSiteDetails filled in, the first detail field present is
    the URL destination one, yet the time-on-site formatter runs. *)
Lemma goal_details_first_present_not_chosen :
  let d := [ ("urlDestinationDetails", VDict []);
             ("visitTimeOnSiteDetails",
              VDict [("comparisonType", VStr "GREATER_THAN"); ("comparisonValue", VStr "300")]) ] in
  select_detail present d = Some UrlDestination
  /\ select_detail non_null d = Some UrlDestination
  /\ print_goal_details (VDict d)
     = ([ "------ Visit Time On Site Goal -------";
          "Comparison Type  = GREATER_THAN";
          "comparison Value = 300" ], Return tt)
  /\ print_goal_details (VDict d) <> dispatch present d
  /\ print_goal_details (VDict d) <> dispatch non_null d.
Proof.
  cbv zeta. repeat split; try reflexivity; vm_compute; discriminate.
Qed.

(** ** A falsy detail field counts as absent *)

(** The dict without any binding of [key]. *)
Fixpoint dict_remove (key : string) (d : list (string * value)) : list (string * value) :=
  match d with
  | [] => []
  | (k, v) :: rest =>
      if String.eqb key k then dict_remove key rest else (k, v) :: dict_remove key rest
  end.

Lemma dict_lookup_remove_same (key : string) (d : list (string * value)) :
  dict_lookup key (dict_remove key d) = None.
Proof.
  induction d as [| [k v] rest IH]; simpl; [reflexivity|].
  destruct (String.eqb key k) eqn:K; [exact IH|]. simpl. rewrite K. exact IH.
Qed.

Lemma dict_lookup_remove_other (key other : string) (d : list (string * value)) :
  String.eqb key other = false ->
  dict_lookup other (dict_remove key d) = dict_lookup other d.
Proof.
  intros N. induction d as [| [k v] rest IH]; simpl; [reflexivity|].
  destruct (String.eqb key k) eqn:K.
  - apply String.eqb_eq in K. subst k.
    rewrite String.eqb_sym, N. exact IH.
  - simpl. rewrite IH. reflexivity.
Qed.

Lemma dict_get_remove_other (key other : string) (d : list (string * value)) :
  String.eqb key other = false ->
  dict_get (dict_remove key d) other = dict_get d other.
Proof. intros N. unfold dict_get. rewrite dict_lookup_remove_other by exact N. reflexivity. Qed.

(** Removing a key bound to a falsy value changes no truthiness test. *)
Lemma set_and_truthy_remove (key other : string) (d : list (string * value)) :
  set_and_truthy (dict_lookup key d) = false ->
  set_and_truthy (dict_lookup other (dict_remove key d))
  = set_and_truthy (dict_lookup other d).
Proof.
  intros F. destruct (String.eqb key other) eqn:K.
  - apply String.eqb_eq in K. subst other.
    rewrite dict_lookup_remove_same, F. reflexivity.
  - rewrite dict_lookup_remove_other by exact K. reflexivity.
Qed.

Lemma dispatch_remove_falsy (key : string) (d : list (string * value)) :
  set_and_truthy (dict_lookup key d) = false ->
  dispatch set_and_truthy (dict_remove key d) = dispatch set_and_truthy d.
Proof.
  intros F. unfold dispatch, select_detail, priority, find.
  rewrite !(set_and_truthy_remove key) by exact F.
  assert (G : forall kind, set_and_truthy (dict_lookup (detail_key kind) d) = true ->
                           dict_get (dict_remove key d) (detail_key kind)
                           = dict_get d (detail_key kind)).
  { intros kind T. apply dict_get_remove_other.
    destruct (String.eqb key (detail_key kind)) eqn:K; [|reflexivity].
    apply String.eqb_eq in K. subst key. congruence. }
  destruct (set_and_truthy (dict_lookup (detail_key UrlDestination) d)) eqn:T1;
    [rewrite (G _ T1); reflexivity|].
  destruct (set_and_truthy (dict_lookup (detail_key VisitTimeOnSite) d)) eqn:T2;
    [rewrite (G _ T2); reflexivity|].
  destruct (set_and_truthy (dict_lookup (detail_key VisitNumPages) d)) eqn:T3;
    [rewrite (G _ T3); reflexivity|].
  destruct (set_and_truthy (dict_lookup (detail_key Event) d)) eqn:T4;
    [rewrite (G _ T4); reflexivity|].
  reflexivity.
Qed.

Lemma print_goals_fields_remove_detail (kind : detail_kind) (d : list (string * value)) :
  print_goals_fields (VDict (dict_remove (detail_key kind) d)) = print_goals_fields (VDict d).
Proof.
  unfold print_goals_fields.
  rewrite !print_field_dict, !py_get_dict. unfold labelled.
  destruct kind; cbn [detail_key];
    rewrite !dict_get_remove_other by reflexivity; reflexivity.
Qed.

(** The detail kinds the dispatch tests before [kind]. *)
Definition tested_before (kind : detail_kind) : list detail_kind :=
  match kind with
  | UrlDestination => []
  | VisitTimeOnSite => [UrlDestination]
  | VisitNumPages => [UrlDestination; VisitTimeOnSite]
  | Event => [UrlDestination; VisitTimeOnSite; VisitNumPages]
  end.

(** C9: the dispatch tests truthiness.  When every detail field tested
    before [kind] is missing or bound to a falsy value (null, an empty
    object, an empty string, ...) and the field of [kind] is truthy, the
    dispatch falls through to [kind] and runs its formatter on that field.
    A detail field bound to a falsy value is treated as if the goal did not
    have it: the goal prints what it prints with the field removed.  A goal
    whose four detail fields are all bound to falsy values gets no detail
    section. *)
Theorem falsy_detail_treated_as_absent (d : list (string * value)) :
  (forall kind,
      (forall earlier, In earlier (tested_before kind) ->
                       set_and_truthy (dict_lookup (detail_key earlier) d) = false) ->
      set_and_truthy (dict_lookup (detail_key kind) d) = true ->
      print_goal_details (VDict d) = detail_formatter kind (dict_get d (detail_key kind))
      /\ print_goals_body (VDict d)
         = (print_goals_fields (VDict d) ;;
            detail_formatter kind (dict_get d (detail_key kind)) ;;
            print_blank))
  /\ (forall kind v,
         dict_lookup (detail_key kind) d = Some v -> truthy v = false ->
         print_goal_details (VDict d)
         = print_goal_details (VDict (dict_remove (detail_key kind) d))
         /\ print_goals_body (VDict d)
            = print_goals_body (VDict (dict_remove (detail_key kind) d)))
  /\ ((forall kind, exists v, dict_lookup (detail_key kind) d = Some v /\ truthy v = false) ->
      print_goal_details (VDict d) = ret tt
      /\ print_goals_body (VDict d) = (print_goals_fields (VDict d) ;; print_blank)).
Proof.
  split; [| split].
  - intros kind Before T.
    assert (E : print_goal_details (VDict d)
                = detail_formatter kind (dict_get d (detail_key kind))).
    { rewrite print_goal_details_dispatch. unfold dispatch, select_detail, priority, find.
      destruct kind; cbn [tested_before In] in Before;
        repeat match goal with
               | |- context [set_and_truthy (dict_lookup (detail_key ?k) d)] =>
                   first [ rewrite T
                         | rewrite (Before k) by (repeat (first [left; reflexivity | right])) ]
               end; reflexivity. }
    split; [exact E |]. unfold print_goals_body. rewrite E. reflexivity.
  - intros kind v L F.
    assert (S : set_and_truthy (dict_lookup (detail_key kind) d) = false)
      by (rewrite L; exact F).
    unfold print_goals_body.
    rewrite !print_goal_details_dispatch, print_goals_fields_remove_detail.
    rewrite (dispatch_remove_falsy _ _ S). split; reflexivity.
  - intros A.
    assert (S : forall kind, set_and_truthy (dict_lookup (detail_key kind) d) = false).
    { intros kind. destruct (A kind) as [v [L F]]. rewrite L. exact F. }
    unfold print_goals_body. rewrite print_goal_details_dispatch.
    unfold dispatch, select_detail, priority, find. rewrite !S.
    split; [reflexivity|]. rewrite bind_ret_l. reflexivity.
Qed.

(** C9 on a goal whose URL destination details are an empty object and
    whose visit details are null: the event section is printed, as it is
    without those fields; and on a goal whose four detail fields are all
    empty. *)
Lemma falsy_detail_treated_as_absent_witness :
  print_goal_details
    (VDict [ ("urlDestinationDetails", VDict []); ("visitTimeOnSiteDetails", VNone);
             ("eventDetails", VDict [("useEventValue", VBool true)]) ])
  = ([ "------ Event Goal -------"; "Use Event Value  = True" ], Return tt)
  /\ print_goals_body
       (VDict [ ("parentLink", VDict []); ("urlDestinationDetails", VDict []);
                ("eventDetails", VDict [("useEventValue", VBool true)]) ])
     = print_goals_body
         (VDict [ ("parentLink", VDict []);
                  ("eventDetails", VDict [("useEventValue", VBool true)]) ])
  /\ print_goal_details
       (VDict [ ("urlDestinationDetails", VDict []); ("visitTimeOnSiteDetails", VDict []);
                ("visitNumPagesDetails", VStr EmptyString); ("eventDetails", VList []) ])
     = ret tt.
Proof.
  split; [| split].
  - apply (proj1 (falsy_detail_treated_as_absent
                    [ ("urlDestinationDetails", VDict []);
                      ("visitTimeOnSiteDetails", VNone);
                      ("eventDetails", VDict [("useEventValue", VBool true)]) ])
             Event).
    + intros earlier [<- | [<- | [<- | []]]]; reflexivity.
    + reflexivity.
  - apply (proj1 (proj2 (falsy_detail_treated_as_absent
                           [ ("parentLink", VDict []); ("urlDestinationDetails", VDict []);
                             ("eventDetails", VDict [("useEventValue", VBool true)]) ]))
             UrlDestination (VDict [])); reflexivity.
  - apply (proj2 (proj2 (falsy_detail_treated_as_absent
                           [ ("urlDestinationDetails", VDict []);
                             ("visitTimeOnSiteDetails", VDict []);
                             ("visitNumPagesDetails", VStr EmptyString);
                             ("eventDetails", VList []) ]))).
    intros [| | |]; eexists; split; reflexivity.
Defined.

(** ** Which items a formatter gets through *)

Definition is_object (v : value) : bool :=
  match v with
  | VDict _ => true
  | _ => false
  end.

(** [item] is an object whose field [key] is an object. *)
Definition has_object (key : string) (item : value) : bool :=
  match item with
  | VDict d => is_object (dict_get d key)
  | _ => false
  end.

(** The field is missing, or it is a list whose elements all pass [ok]. *)
Definition list_or_absent (ok : value -> bool) (binding : option value) : bool :=
  match binding with
  | None => true
  | Some (VList l) => forallb ok l
  | Some _ => false
  end.

Definition account_ok (item : value) : bool := has_object "childLink" item.

Definition webproperty_ok (item : value) : bool :=
  has_object "parentLink" item && has_object "childLink" item.

Definition profile_ok (item : value) : bool :=
  has_object "parentLink" item && has_object "childLink" item.

(** The detail object a detail formatter is given: an object whose steps
    (URL destination) or eventConditions (event) are missing or a list of
    objects. *)
Definition detail_ok (kind : detail_kind) (details : value) : bool :=
  match details with
  | VDict dd =>
      match kind with
      | UrlDestination => list_or_absent is_object (dict_lookup "steps" dd)
      | Event => list_or_absent is_object (dict_lookup "eventConditions" dd)
      | VisitTimeOnSite | VisitNumPages => true
      end
  | _ => false
  end.

Definition goal_ok (item : value) : bool :=
  has_object "parentLink" item
  && match item with
     | VDict d =>
         match select_detail set_and_truthy d with
         | Some kind => detail_ok kind (dict_get d (detail_key kind))
         | None => true
         end
     | _ => false
     end.


Ltac object_field H :=
  match type of H with
  | is_object ?v = true =>
      let c := fresh "link" in
      destruct v as [ | | | | | | c]; try discriminate H
  end.

Lemma print_accounts_body_returns (item : value) :
  account_ok item = true -> result (print_accounts_body item) = Return tt.
Proof.
  unfold account_ok, has_object. destruct item as [ | | | | | | d]; try discriminate.
  intros H. unfold print_accounts_body. rewrite py_get_dict, bind_ret_l.
  object_field H. rewrite !print_field_dict. reflexivity.
Qed.

Lemma print_webproperties_body_returns (item : value) :
  webproperty_ok item = true -> result (print_webproperties_body item) = Return tt.
Proof.
  unfold webproperty_ok, has_object. destruct item as [ | | | | | | d]; try discriminate.
  intros H. apply andb_true_iff in H. destruct H as [H1 H2].
  unfold print_webproperties_body. rewrite !py_get_dict, !bind_ret_l.
  object_field H1. object_field H2. rewrite !print_field_dict. reflexivity.
Qed.

Lemma print_profiles_body_returns (item : value) :
  profile_ok item = true -> result (print_profiles_body item) = Return tt.
Proof.
  unfold profile_ok, has_object. destruct item as [ | | | | | | d]; try discriminate.
  intros H. apply andb_true_iff in H. destruct H as [H1 H2].
  unfold print_profiles_body. rewrite !py_get_dict, !bind_ret_l.
  object_field H1. object_field H2. rewrite !print_field_dict. reflexivity.
Qed.


(** A loop over a field that is missing or a list of good elements. *)
Lemma loop_over_field_returns (ok : value -> bool) (body : value -> P unit)
      (d : list (string * value)) (key : string) :
  (forall x, ok x = true -> result (body x) = Return tt) ->
  list_or_absent ok (dict_lookup key d) = true ->
  result (items <- py_get_default (VDict d) key (VList []) ;; for_in items body) = Return tt.
Proof.
  intros B H. rewrite py_get_default_dict, bind_ret_l.
  destruct (dict_lookup key d) as [v |]; [| reflexivity].
  destruct v as [ | | | | | l | ]; try discriminate H.
  rewrite for_in_list. apply for_each_returns.
  intros x Hx. apply B. cbn [list_or_absent] in H.
  rewrite forallb_forall in H. apply H. exact Hx.
Qed.

Lemma print_goal_step_returns (step : value) :
  is_object step = true -> result (print_goal_step step) = Return tt.
Proof.
  destruct step; try discriminate. intros _.
  unfold print_goal_step. rewrite !print_field_dict. reflexivity.
Qed.

Lemma print_event_condition_returns (condition : value) :
  is_object condition = true -> result (print_event_condition condition) = Return tt.
Proof.
  destruct condition; try discriminate. intros _.
  rewrite print_event_condition_dict. reflexivity.
Qed.

Lemma detail_formatter_returns (kind : detail_kind) (details : value) :
  detail_ok kind details = true -> result (detail_formatter kind details) = Return tt.
Proof.
  destruct details as [ | | | | | | dd]; try discriminate.
  destruct kind; cbn [detail_ok detail_formatter]; intros H.
  - unfold print_url_destination_goal_details, print.
    rewrite !print_field_dict, py_get_dict.
    rewrite <- (bind_assoc (py_get_default (VDict dd) "steps" (VList []))).
    repeat (rewrite (result_bind_return _ _ tt) by reflexivity).
    rewrite (result_bind_return _ _ tt)
      by (apply (loop_over_field_returns is_object);
          [exact print_goal_step_returns | exact H]).
    rewrite bind_ret_l. destruct (negb (truthy (dict_get dd "steps"))); reflexivity.
  - unfold print_visit_time_on_site_goal_details. rewrite !print_field_dict. reflexivity.
  - unfold print_visit_num_pages_goal_details. rewrite !print_field_dict. reflexivity.
  - unfold print_event_goal_details, print. rewrite !print_field_dict.
    repeat (rewrite (result_bind_return _ _ tt) by reflexivity).
    apply (loop_over_field_returns is_object);
      [exact print_event_condition_returns | exact H].
Qed.

Lemma print_goals_body_returns (item : value) :
  goal_ok item = true -> result (print_goals_body item) = Return tt.
Proof.
  unfold goal_ok, has_object. destruct item as [ | | | | | | d]; try discriminate.
  intros H. apply andb_true_iff in H. destruct H as [H1 H2].
  unfold print_goals_body. rewrite print_goal_details_dispatch.
  assert (F : result (print_goals_fields (VDict d)) = Return tt).
  { unfold print_goals_fields. rewrite py_get_dict.
    object_field H1. rewrite bind_ret_l, !print_field_dict. reflexivity. }
  rewrite (result_bind_return _ _ tt) by exact F.
  assert (D : result (dispatch set_and_truthy d) = Return tt).
  { unfold dispatch. destruct (select_detail set_and_truthy d) as [kind |];
      [apply detail_formatter_returns; exact H2 | reflexivity]. }
  rewrite (result_bind_return _ _ tt) by exact D. reflexivity.
Qed.

(** ** Collections *)

(** The four hierarchy formatters share one shape: header, pagination
    block, blank line, loop over the items, sentinel when [items] is
    falsy. *)
Definition collection (header sentinel : string) (body : value -> P unit)
           (response : value) : P unit :=
  print header ;;
  print_pagination_info response ;;
  print_blank ;;
  items <- py_get_default response "items" (VList []) ;;
  for_in items body ;;
  items <- py_get response "items" ;;
  (if negb (truthy items)
   then print (sentinel ++ newline)
   else ret tt).

Lemma print_accounts_collection (response : value) :
  print_accounts response
  = collection "------ Account Collection -------" "No accounts found."
      print_accounts_body response.
Proof. reflexivity. Qed.

Lemma print_webproperties_collection (response : value) :
  print_webproperties response
  = collection "------ Web Properties Collection -------" "No webproperties found."
      print_webproperties_body response.
Proof. reflexivity. Qed.

Lemma print_profiles_collection (response : value) :
  print_profiles response
  = collection "------ Profiles Collection -------" "No profiles found."
      print_profiles_body response.
Proof. reflexivity. Qed.

Lemma print_goals_collection (response : value) :
  print_goals response
  = collection "------ Goals Collection -------" "No goals found."
      print_goals_body response.
Proof. reflexivity. Qed.



(** No items: the key is missing or bound to the empty list. *)
Definition no_items (d : list (string * value)) : Prop :=
  dict_lookup "items" d = None \/ dict_lookup "items" d = Some (VList []).

Lemma collection_no_items (header sentinel : string) (body : value -> P unit)
      (d : list (string * value)) :
  no_items d ->
  collection header sentinel body (VDict d)
  = ((header :: pagination_lines set_and_truthy d) ++ [EmptyString; (sentinel ++ newline)%string],
     Return tt)%list.
Proof.
  intros H. unfold collection, print, print_blank, emit.
  rewrite print_pagination_info_dict, py_get_dict, py_get_default_dict.
  unfold dict_get.
  destruct H as [-> | ->]; rewrite !bind_ret_l, for_in_list; cbn [for_each truthy negb];
    rewrite !bind_return, bind_ret_l; reflexivity.
Qed.

Lemma print_segments_no_items (d : list (string * value)) :
  no_items d ->
  print_segments (VDict d)
  = (("------ Segments Collection -------" :: pagination_lines set_and_truthy d)
       ++ [EmptyString], Return tt)%list.
Proof.
  intros H. unfold print_segments, print, print_blank, emit.
  rewrite print_pagination_info_dict, py_get_default_dict.
  destruct H as [-> | ->]; rewrite !bind_ret_l, for_in_list; cbn [for_each];
    rewrite !bind_return; cbn [log result fst snd ret];
    rewrite ?app_nil_r; reflexivity.
Qed.

(** The four hierarchy formatters do print their sentinel, once, after the
    pagination block and the blank line, and nothing per item. *)
Lemma hierarchy_sentinels (d : list (string * value)) :
  no_items d ->
  print_accounts (VDict d)
  = (("------ Account Collection -------" :: pagination_lines set_and_truthy d)
       ++ [EmptyString; ("No accounts found." ++ newline)%string], Return tt)%list
  /\ print_webproperties (VDict d)
     = (("------ Web Properties Collection -------" :: pagination_lines set_and_truthy d)
          ++ [EmptyString; ("No webproperties found." ++ newline)%string], Return tt)%list
  /\ print_profiles (VDict d)
     = (("------ Profiles Collection -------" :: pagination_lines set_and_truthy d)
          ++ [EmptyString; ("No profiles found." ++ newline)%string], Return tt)%list
  /\ print_goals (VDict d)
     = (("------ Goals Collection -------" :: pagination_lines set_and_truthy d)
          ++ [EmptyString; ("No goals found." ++ newline)%string], Return tt)%list.
Proof.
  intros H.
  rewrite print_accounts_collection, print_webproperties_collection,
    print_profiles_collection, print_goals_collection.
  repeat split; apply collection_no_items; exact H.
Qed.

(** C2, the code at a segments response with no items: [print_segments]
    prints the header, the pagination block and a blank line, and stops;
    there is no sentinel line, while [print_accounts] prints one on the same
    response. *)
Theorem print_segments_prints_no_sentinel :
  print_segments (VDict [])
  = ([ "------ Segments Collection -------"; "Items per page = None";
       "Total Results  = None"; "Start Index    = None"; EmptyString ], Return tt)
  /\ print_segments (VDict [("items", VList [])])
     = ([ "------ Segments Collection -------"; "Items per page = None";
          "Total Results  = None"; "Start Index    = None"; EmptyString ], Return tt)
  /\ print_accounts (VDict [])
     = ([ "------ Account Collection -------"; "Items per page = None";
          "Total Results  = None"; "Start Index    = None"; EmptyString;
          "No accounts found." ++ newline ], Return tt).
Proof. repeat split. Qed.


(** ** The walker: what a run can emit *)

Lemma log_show {A} (p : P A) : log (show p) = map Printed (log p).
Proof. reflexivity. Qed.

Lemma result_show {A} (p : P A) : result (show p) = result p.
Proof. reflexivity. Qed.

Lemma show_returns {A} (p : P A) (a : A) :
  result p = Return a -> show p = (map Printed (log p), Return a).
Proof. intros H. unfold show, lift. fold (result p). rewrite H. reflexivity. Qed.

Lemma bind_ext {E A B} (m : M E A) (f g : A -> M E B) :
  (forall a, f a = g a) -> bind m f = bind m g.
Proof. intros H. destruct m as [l [a | e]]; simpl; [rewrite H|]; reflexivity. Qed.

(** The walk down the hierarchy: [traverse_hiearchy] up to its last
    statement. *)
Definition walk_hierarchy (service : Service) : M event unit :=
  accounts <- execute service AccountsList ;;
  show (print_accounts accounts) ;;
  items <- py_get accounts "items" ;;
  if truthy items
  then
    items <- py_get accounts "items" ;;
    first <- py_getitem0 items ;;
    firstAccountId <- py_get first "id" ;;
    webproperties <- execute service (WebpropertiesList firstAccountId) ;;
    show (print_webproperties webproperties) ;;
    items <- py_get webproperties "items" ;;
    if truthy items
    then
      items <- py_get webproperties "items" ;;
      first <- py_getitem0 items ;;
      firstWebpropertyId <- py_get first "id" ;;
      profiles <- execute service (ProfilesList firstAccountId firstWebpropertyId) ;;
      show (print_profiles profiles) ;;
      items <- py_get profiles "items" ;;
      if truthy items
      then
        items <- py_get profiles "items" ;;
        first <- py_getitem0 items ;;
        firstProfileId <- py_get first "id" ;;
        goals <- execute service
                   (GoalsList firstAccountId firstWebpropertyId firstProfileId) ;;
        show (print_goals goals)
      else ret tt
    else ret tt
  else ret tt.

(** The last statement of [traverse_hiearchy]. *)
Definition list_segments (service : Service) : M event unit :=
  segments <- execute service SegmentsList ;;
  show (print_segments segments).

Lemma traverse_hiearchy_split (service : Service) :
  traverse_hiearchy service = (walk_hierarchy service ;; list_segments service).
Proof.
  unfold traverse_hiearchy, walk_hierarchy.
  rewrite bind_assoc. apply bind_ext. intros accounts.
  rewrite bind_assoc. apply bind_ext. intros _.
  rewrite bind_assoc. reflexivity.
Qed.

Lemma py_getitem0_object (v : value) (item : list (string * value)) :
  result (@py_getitem0 event v) = Return (VDict item) ->
  exists rest, v = VList (VDict item :: rest).
Proof.
  destruct v as [ | | | | [| c s] | [| x rest] | ]; try discriminate.
  cbn. intros H. injection H as ->. exists rest. reflexivity.
Qed.

(** [key] is the id of the item at index 0 of the non-empty item list of
    [response]; nothing is said, or read, of the items after it. *)
Definition keyed_by_first (response key : value) : Prop :=
  exists d item rest,
    response = VDict d
    /\ dict_lookup "items" d = Some (VList (VDict item :: rest))
    /\ key = dict_get item "id".

(** The guard and the key selection of one level of the walk. *)
Lemma first_id_selected (response items items' item0 key : value) :
  result (@py_get event response "items") = Return items ->
  truthy items = true ->
  result (@py_get event response "items") = Return items' ->
  result (@py_getitem0 event items') = Return item0 ->
  result (@py_get event item0 "id") = Return key ->
  keyed_by_first response key.
Proof.
  intros R1 T R2 R3 R4.
  apply py_get_returns in R1. destruct R1 as [d [-> ->]].
  apply py_get_returns in R2. destruct R2 as [d' [D ->]]. injection D as <-.
  apply py_get_returns in R4. destruct R4 as [item [-> ->]].
  apply py_getitem0_object in R3. destruct R3 as [rest R3].
  exists d, item, rest. repeat split.
  unfold dict_get in R3. destruct (dict_lookup "items" d); [congruence | discriminate R3].
Qed.

(** Every event of the walk down the hierarchy, with what led to it. *)
Inductive walk_event (service : Service) : event -> Prop :=
| walk_printed (text : string) :
    walk_event service (Printed text)
| walk_accounts :
    walk_event service (Called AccountsList (accounts_list service))
| walk_webproperties (accounts a : value) :
    accounts_list service = Return accounts ->
    result (print_accounts accounts) = Return tt ->
    keyed_by_first accounts a ->
    walk_event service (Called (WebpropertiesList a) (webproperties_list service a))
| walk_profiles (accounts a webproperties w : value) :
    accounts_list service = Return accounts ->
    result (print_accounts accounts) = Return tt ->
    keyed_by_first accounts a ->
    webproperties_list service a = Return webproperties ->
    result (print_webproperties webproperties) = Return tt ->
    keyed_by_first webproperties w ->
    walk_event service (Called (ProfilesList a w) (profiles_list service a w))
| walk_goals (accounts a webproperties w profiles p : value) :
    accounts_list service = Return accounts ->
    result (print_accounts accounts) = Return tt ->
    keyed_by_first accounts a ->
    webproperties_list service a = Return webproperties ->
    result (print_webproperties webproperties) = Return tt ->
    keyed_by_first webproperties w ->
    profiles_list service a w = Return profiles ->
    result (print_profiles profiles) = Return tt ->
    keyed_by_first profiles p ->
    walk_event service (Called (GoalsList a w p) (goals_list service a w p)).

Ltac next_step H x R :=
  apply in_log_bind in H; destruct H as [H | [x [R H]]].

Ltac emits_nothing H :=
  first [rewrite log_py_get in H | rewrite log_py_getitem0 in H]; destruct H.

Ltac emits_text H :=
  rewrite log_show in H; apply in_map_iff in H;
  let s := fresh "s" in destruct H as [s [<- _]]; apply walk_printed.

Lemma walk_hierarchy_events (service : Service) (ev : event) :
  In ev (log (walk_hierarchy service)) -> walk_event service ev.
Proof.
  intros H. unfold walk_hierarchy in H.
  next_step H accounts Ra. { destruct H as [<- | []]. apply walk_accounts. }
  cbn in Ra.
  next_step H u1 Pa. { emits_text H. }
  rewrite result_show in Pa. destruct u1.
  next_step H items Ri. { emits_nothing H. }
  destruct (truthy items) eqn:T; [| destruct H].
  next_step H items' Ri'. { emits_nothing H. }
  next_step H item0 Rf. { emits_nothing H. }
  next_step H a Rk. { emits_nothing H. }
  pose proof (first_id_selected _ _ _ _ _ Ri T Ri' Rf Rk) as Ka.
  clear Ri T Ri' Rf Rk items items' item0.
  next_step H webproperties Rb.
  { destruct H as [<- | []]. apply (walk_webproperties service accounts); assumption. }
  cbn in Rb.
  next_step H u2 Pb. { emits_text H. }
  rewrite result_show in Pb. destruct u2.
  next_step H items Ri. { emits_nothing H. }
  destruct (truthy items) eqn:T; [| destruct H].
  next_step H items' Ri'. { emits_nothing H. }
  next_step H item0 Rf. { emits_nothing H. }
  next_step H w Rk. { emits_nothing H. }
  pose proof (first_id_selected _ _ _ _ _ Ri T Ri' Rf Rk) as Kw.
  clear Ri T Ri' Rf Rk items items' item0.
  next_step H profiles Rc.
  { destruct H as [<- | []].
    apply (walk_profiles service accounts a webproperties); assumption. }
  cbn in Rc.
  next_step H u3 Pc. { emits_text H. }
  rewrite result_show in Pc. destruct u3.
  next_step H items Ri. { emits_nothing H. }
  destruct (truthy items) eqn:T; [| destruct H].
  next_step H items' Ri'. { emits_nothing H. }
  next_step H item0 Rf. { emits_nothing H. }
  next_step H p Rk. { emits_nothing H. }
  pose proof (first_id_selected _ _ _ _ _ Ri T Ri' Rf Rk) as Kp.
  next_step H goals Rg.
  { destruct H as [<- | []].
    apply (walk_goals service accounts a webproperties w profiles); assumption. }
  emits_text H.
Qed.

Lemma list_segments_events (service : Service) (ev : event) :
  In ev (log (list_segments service)) ->
  ev = Called SegmentsList (segments_list service) \/ exists text, ev = Printed text.
Proof.
  intros H. unfold list_segments in H.
  next_step H segments Rs. { destruct H as [<- | []]. left. reflexivity. }
  rewrite log_show in H. apply in_map_iff in H. destruct H as [s [<- _]].
  right. exists s. reflexivity.
Qed.

Lemma traverse_hiearchy_events (service : Service) (ev : event) :
  In ev (log (traverse_hiearchy service)) ->
  walk_event service ev \/ ev = Called SegmentsList (segments_list service).
Proof.
  rewrite traverse_hiearchy_split. intros H.
  apply in_log_bind in H. destruct H as [H | [u [_ H]]].
  - left. apply walk_hierarchy_events. exact H.
  - apply list_segments_events in H. destruct H as [H | [text ->]].
    + right. exact H.
    + left. apply walk_printed.
Qed.

(** C4: the walker calls a deeper level only when the parent response has a
    non-empty item list, and each parent key it passes is the id of the item
    at index 0 of that list: the account id from the accounts response, the
    web property id from the web properties response fetched for that
    account, the profile id from the profiles response fetched for those
    two. *)
Theorem parent_keys_come_from_first_item (service : Service) :
  let run := log (traverse_hiearchy service) in
  (forall a r,
      In (Called (WebpropertiesList a) r) run ->
      exists accounts,
        accounts_list service = Return accounts /\ keyed_by_first accounts a)
  /\ (forall a w r,
         In (Called (ProfilesList a w) r) run ->
         exists accounts webproperties,
           accounts_list service = Return accounts /\ keyed_by_first accounts a
           /\ webproperties_list service a = Return webproperties
           /\ keyed_by_first webproperties w)
  /\ (forall a w p r,
         In (Called (GoalsList a w p) r) run ->
         exists accounts webproperties profiles,
           accounts_list service = Return accounts /\ keyed_by_first accounts a
           /\ webproperties_list service a = Return webproperties
           /\ keyed_by_first webproperties w
           /\ profiles_list service a w = Return profiles
           /\ keyed_by_first profiles p).
Proof.
  cbv zeta. repeat split.
  - intros a r H. apply traverse_hiearchy_events in H.
    destruct H as [H | H]; [| discriminate H]. inversion H; subst.
    exists accounts. split; assumption.
  - intros a w r H. apply traverse_hiearchy_events in H.
    destruct H as [H | H]; [| discriminate H]. inversion H; subst.
    exists accounts, webproperties. repeat split; assumption.
  - intros a w p r H. apply traverse_hiearchy_events in H.
    destruct H as [H | H]; [| discriminate H]. inversion H; subst.
    exists accounts, webproperties, profiles. repeat split; assumption.
Qed.

(** *** A sample run *)

Definition sample_link : value :=
  VDict [("href", VStr "https://example.org/next"); ("type", VStr "analytics#link")].

Definition sample_item (id : string) : value :=
  VDict [("id", VStr id); ("parentLink", sample_link); ("childLink", sample_link)].

Definition sample_accounts : value :=
  VDict [("totalResults", VInt 2); ("items", VList [sample_item "A1"; sample_item "A2"])].

Definition sample_webproperties : value :=
  VDict [("items", VList [sample_item "W1"; sample_item "W2"])].

Definition sample_profiles : value :=
  VDict [("items", VList [sample_item "P1"])].

Definition sample_goals : value := VDict [("items", VList [])].

Definition sample_segments : value := VDict [("items", VList [VDict [("id", VStr "-1")]])].

(** A service that knows one account, one web property and one profile to
    descend into, and answers 404 for any other key. *)
Definition sample_service : Service :=
  {| accounts_list := Return sample_accounts;
     webproperties_list a :=
       if eq_str a "A1" then Return sample_webproperties
       else Raise (HttpError 404 "Not Found");
     profiles_list a w :=
       if eq_str a "A1" && eq_str w "W1" then Return sample_profiles
       else Raise (HttpError 404 "Not Found");
     goals_list a w p :=
       if eq_str a "A1" && eq_str w "W1" && eq_str p "P1" then Return sample_goals
       else Raise (HttpError 404 "Not Found");
     segments_list := Return sample_segments |}.

Ltac find_event := vm_compute; repeat (first [left; reflexivity | right]).

(** C4 on the sample run: the goals call is keyed by the first account, its
    first web property and that one's first profile. *)
Lemma parent_keys_come_from_first_item_witness :
  exists accounts webproperties profiles,
    accounts_list sample_service = Return accounts
    /\ keyed_by_first accounts (VStr "A1")
    /\ webproperties_list sample_service (VStr "A1") = Return webproperties
    /\ keyed_by_first webproperties (VStr "W1")
    /\ profiles_list sample_service (VStr "A1") (VStr "W1") = Return profiles
    /\ keyed_by_first profiles (VStr "P1").
Proof.
  apply (proj2 (proj2 (parent_keys_come_from_first_item sample_service))
           (VStr "A1") (VStr "W1") (VStr "P1") (Return sample_goals)).
  find_event.
Defined.

(** ** Errors raised by a list call *)

(** A failed call is the last thing the computation does. *)
Definition stops_at_failed_call {A} (m : M event A) : Prop :=
  forall rq e,
    In (Called rq (Raise e)) (log m) ->
    exists before, log m = (before ++ [Called rq (Raise e)])%list /\ result m = Raise e.

Lemma stops_bind {A B} (m : M event A) (f : A -> M event B) :
  stops_at_failed_call m ->
  (forall a, stops_at_failed_call (f a)) ->
  stops_at_failed_call (bind m f).
Proof.
  intros Hm Hf rq e H. destruct m as [l [a | e']].
  - rewrite bind_return in *. cbn [log result fst snd] in *.
    apply in_app_iff in H. destruct H as [H | H].
    + destruct (Hm rq e H) as [_ [_ R]]. discriminate R.
    + destruct (Hf a rq e H) as [before [L R]].
      exists (l ++ before)%list. rewrite L, app_assoc. split; [reflexivity | exact R].
  - rewrite bind_raise in *. destruct (Hm rq e H) as [before [L R]].
    exists before. cbn [log result fst snd] in *. split; [exact L | congruence].
Qed.

Lemma stops_execute (service : Service) (rq : request) :
  stops_at_failed_call (execute service rq).
Proof.
  intros rq' e [H | []]. injection H as <- R.
  exists []. unfold execute. rewrite R. split; reflexivity.
Qed.

Lemma stops_show {A} (p : P A) : stops_at_failed_call (show p).
Proof.
  intros rq e H. rewrite log_show in H. apply in_map_iff in H.
  destruct H as [s [H _]]. discriminate H.
Qed.

Lemma stops_silent {A} (m : M event A) : log m = [] -> stops_at_failed_call m.
Proof. intros L rq e H. rewrite L in H. destruct H. Qed.

Ltac stops :=
  repeat first
    [ apply stops_execute
    | apply stops_show
    | apply stops_silent; first [apply log_py_get | apply log_py_getitem0 | reflexivity]
    | apply stops_bind; [| intros ?]
    | match goal with |- stops_at_failed_call (if ?b then _ else _) => destruct b end ].

Lemma traverse_hiearchy_stops (service : Service) :
  stops_at_failed_call (traverse_hiearchy service).
Proof. unfold traverse_hiearchy. stops. Qed.

(** The handlers of [main] print and do nothing else. *)
Lemma main_after_raise (service : Service) (e : exn) :
  result (traverse_hiearchy service) = Raise e ->
  main service
  = match diagnostic e with
    | Some text => ((log (traverse_hiearchy service) ++ [Printed text])%list, Return tt)
    | None => (log (traverse_hiearchy service), Raise e)
    end.
Proof.
  intros R. unfold main, try_except.
  destruct (traverse_hiearchy service) as [l r]. cbn [result log fst snd] in *. subst r.
  destruct (diagnostic e); reflexivity.
Qed.

Lemma main_after_return (service : Service) :
  result (traverse_hiearchy service) = Return tt ->
  main service = traverse_hiearchy service.
Proof.
  intros R. unfold main, try_except.
  destruct (traverse_hiearchy service) as [l r]. cbn [result snd] in R. subst r. reflexivity.
Qed.

Lemma main_calls_are_traversal_calls (service : Service) (rq : request) (r : outcome value) :
  In (Called rq r) (log (main service)) ->
  In (Called rq r) (log (traverse_hiearchy service)).
Proof.
  destruct (result (traverse_hiearchy service)) as [[] | e] eqn:R.
  - rewrite (main_after_return _ R). tauto.
  - rewrite (main_after_raise _ _ R). destruct (diagnostic e); [| tauto].
    cbn [log fst]. rewrite in_app_iff. intros [H | [H | []]]; [exact H | discriminate H].
Qed.

(** The three exception kinds [main] names, and no other, have a
    diagnostic. *)
Lemma diagnostic_kinds (e : exn) :
  diagnostic e <> None
  <-> (exists msg, e = TypeError msg)
      \/ (exists status reason, e = HttpError status reason)
      \/ e = AccessTokenRefreshError.
Proof.
  split.
  - destruct e; cbn; intros H; try (exfalso; apply H; reflexivity);
      [left; eexists | right; left; do 2 eexists | right; right]; reflexivity.
  - intros [[msg ->] | [[status [reason ->]] | ->]]; discriminate.
Qed.

Lemma traverse_webproperties_raises (service : Service) (accounts a : value) (e : exn) :
  accounts_list service = Return accounts ->
  result (print_accounts accounts) = Return tt ->
  keyed_by_first accounts a ->
  webproperties_list service a = Raise e ->
  traverse_hiearchy service
  = ((Called AccountsList (Return accounts) :: map Printed (log (print_accounts accounts)))
       ++ [Called (WebpropertiesList a) (Raise e)], Raise e)%list.
Proof.
  intros Ha Hp [d [item [rest [-> [L ->]]]]] Hw.
  unfold traverse_hiearchy, execute. cbn [respond]. rewrite Ha, bind_after.
  rewrite (show_returns _ tt Hp), bind_after.
  rewrite !py_get_dict, bind_ret_l. unfold dict_get at 1 2. rewrite L.
  cbn [truthy]. rewrite bind_ret_l. cbn [py_getitem0].
  rewrite bind_ret_l, py_get_dict, bind_ret_l.
  rewrite Hw, !bind_raise. unfold after. cbn [log result fst snd]. reflexivity.
Qed.

(** *** Section headers *)

(** A line that opens a section. *)
Definition is_section_header (line : string) : bool := String.prefix "------ " line.

Lemma print_field_lines (label : string) (obj : value) (key line : string) :
  In line (log (print_field label obj key)) -> exists v, line = label ++ py_str v.
Proof.
  unfold print_field. intros H. apply in_log_bind in H.
  destruct H as [H | [v [_ [<- | []]]]]; [| exists v; reflexivity].
  rewrite log_py_get in H. destruct H.
Qed.

Ltac labelled_line H :=
  first [ apply print_field_lines in H; destruct H as [? ->]; reflexivity
        | rewrite log_py_get in H; destruct H
        | destruct H as [<- | []]; reflexivity ].

Ltac next_line H := apply in_log_bind in H; destruct H as [H | [? [_ H]]]; [labelled_line H |].

Lemma pagination_no_header (response : value) (line : string) :
  In line (log (print_pagination_info response)) -> is_section_header line = false.
Proof.
  unfold print_pagination_info. intros H. do 4 next_line H.
  apply in_log_bind in H. destruct H as [H | [? [_ H]]].
  { destruct (truthy _); [labelled_line H | destruct H]. }
  next_line H. destruct (truthy _); [labelled_line H | destruct H].
Qed.

Lemma accounts_body_no_header (account : value) (line : string) :
  In line (log (print_accounts_body account)) -> is_section_header line = false.
Proof.
  unfold print_accounts_body, print_blank, emit. intros H. do 9 next_line H. labelled_line H.
Qed.

(** The only section header [print_accounts] prints is its own. *)
Lemma print_accounts_headers (response : value) (line : string) :
  In line (log (print_accounts response)) ->
  line = "------ Account Collection -------" \/ is_section_header line = false.
Proof.
  unfold print_accounts, print, print_blank, emit. intros H.
  apply in_log_bind in H. destruct H as [[<- | []] | [? [_ H]]]; [left; reflexivity |].
  right.
  apply in_log_bind in H. destruct H as [H | [? [_ H]]].
  { apply pagination_no_header in H. exact H. }
  next_line H.
  apply in_log_bind in H. destruct H as [H | [items [_ H]]].
  { unfold py_get_default in H. destruct response; try destruct H.
    destruct (dict_lookup "items" d); destruct H. }
  apply in_log_bind in H. destruct H as [H | [? [_ H]]].
  { apply in_log_for_in in H. destruct H as [account H].
    apply accounts_body_no_header in H. exact H. }
  next_line H. destruct (negb (truthy _)); [labelled_line H | destruct H].
Qed.

(** The three exception kinds the [except] clauses of [main] name, each
    with the line its clause prints. *)
Inductive reported : exn -> string -> Prop :=
| reported_query (msg : string) :
    reported (TypeError msg)
      ("There was an error in constructing your query : " ++ msg)
| reported_api (status : Z) (reason : string) :
    reported (HttpError status reason)
      ("Arg, there was an API error : "
         ++ NilZero.string_of_int (Z.to_int status) ++ " : " ++ reason)
| reported_credentials :
    reported AccessTokenRefreshError
      "The credentials have been revoked or expired, please re-runthe application to re-authorize".

(** C5: when a list call raises a query-construction error (TypeError), a
    transport error (HttpError) or a credential error
    (AccessTokenRefreshError), that call is the last step of the traversal,
    [main] prints the one line of that kind after what the traversal had
    printed, and returns normally.  For a transport error the line is made
    of the status, in decimal, and the reason.  A transport error on the web
    properties call leaves a run made of the accounts call, the accounts
    section, the failed call and the diagnostic: it has no profiles, goals
    or segments call and prints none of their section headers. *)
Theorem failed_call_aborts_with_one_diagnostic (service : Service) :
  (forall rq e text,
      In (Called rq (Raise e)) (log (main service)) ->
      reported e text ->
      exists before,
        traverse_hiearchy service = ((before ++ [Called rq (Raise e)])%list, Raise e)
        /\ main service
           = ((before ++ [Called rq (Raise e); Printed text])%list, Return tt))
  /\ (forall status reason,
         diagnostic (HttpError status reason)
         = Some ("Arg, there was an API error : "
                   ++ NilZero.string_of_int (Z.to_int status) ++ " : " ++ reason))
  /\ (forall a status reason,
         In (Called (WebpropertiesList a) (Raise (HttpError status reason)))
            (log (main service)) ->
         exists accounts,
           accounts_list service = Return accounts
           /\ main service
              = ((Called AccountsList (Return accounts)
                    :: map Printed (log (print_accounts accounts)))
                   ++ [ Called (WebpropertiesList a) (Raise (HttpError status reason));
                        Printed ("Arg, there was an API error : "
                                   ++ NilZero.string_of_int (Z.to_int status)
                                   ++ " : " ++ reason) ],
                 Return tt)%list
           /\ (forall rq r,
                  In (Called rq r) (log (main service)) ->
                  rq = AccountsList \/ rq = WebpropertiesList a)
           /\ (forall header,
                  In header [ "------ Profiles Collection -------";
                              "------ Goals Collection -------";
                              "------ Segments Collection -------" ] ->
                  ~ In (Printed header) (log (main service)))).
Proof.
  repeat split.
  - intros rq e text H Rp.
    assert (D : diagnostic e = Some text) by (destruct Rp; reflexivity).
    apply main_calls_are_traversal_calls in H.
    destruct (traverse_hiearchy_stops service rq e H) as [before [L R]].
    exists before. rewrite (main_after_raise _ _ R), D, L, <- app_assoc.
    split; [| reflexivity].
    destruct (traverse_hiearchy service) as [l r]. cbn [log result fst snd] in *.
    subst. reflexivity.
  - intros a status reason H. apply main_calls_are_traversal_calls in H.
    pose proof (traverse_hiearchy_events _ _ H) as W.
    destruct W as [W | W]; [| discriminate W].
    inversion W as [ | | accounts a' Ha Hp Ka [Ea Er] | | ]. subst a'.
    exists accounts. split; [exact Ha |].
    pose proof (traverse_webproperties_raises _ _ _ _ Ha Hp Ka Er) as T.
    assert (R : result (traverse_hiearchy service) = Raise (HttpError status reason))
      by (rewrite T; reflexivity).
    assert (Em : main service
                 = ((Called AccountsList (Return accounts)
                       :: map Printed (log (print_accounts accounts)))
                      ++ [ Called (WebpropertiesList a) (Raise (HttpError status reason));
                           Printed ("Arg, there was an API error : "
                                      ++ NilZero.string_of_int (Z.to_int status)
                                      ++ " : " ++ reason) ],
                    Return tt)%list).
    { rewrite (main_after_raise _ _ R), T, ?Er. cbn [diagnostic log fst].
      rewrite <- app_assoc. reflexivity. }
    rewrite ?Er. split; [exact Em |]. rewrite Em. cbn [log fst]. split.
    + intros rq r [I | I]; [injection I as <- _; left; reflexivity |].
      apply in_app_iff in I. destruct I as [I | [I | [I | []]]].
      * apply in_map_iff in I. destruct I as [? [I _]]. discriminate I.
      * injection I as <- _. right. reflexivity.
      * discriminate I.
    + intros header Hh [I | I]; [discriminate I |].
      apply in_app_iff in I. destruct I as [I | [I | [I | []]]].
      * apply in_map_iff in I. destruct I as [line [I L]]. injection I as ->.
        apply print_accounts_headers in L.
        destruct Hh as [<- | [<- | [<- | []]]]; destruct L as [L | L]; discriminate L.
      * discriminate I.
      * injection I as I.
        destruct Hh as [<- | [<- | [<- | []]]]; discriminate I.
Qed.

(** A service whose web properties call is refused. *)
Definition forbidden_service : Service :=
  {| accounts_list := Return sample_accounts;
     webproperties_list _ := Raise (HttpError 403 "insufficient permission");
     profiles_list _ _ := Return sample_profiles;
     goals_list _ _ _ := Return sample_goals;
     segments_list := Return sample_segments |}.

(** A service whose credentials have expired, and one that rejects the
    segments query. *)
Definition expired_service : Service :=
  {| accounts_list := Raise AccessTokenRefreshError;
     webproperties_list _ := Return sample_webproperties;
     profiles_list _ _ := Return sample_profiles;
     goals_list _ _ _ := Return sample_goals;
     segments_list := Return sample_segments |}.

Definition rejecting_service : Service :=
  {| accounts_list := Return (VDict []);
     webproperties_list _ := Return sample_webproperties;
     profiles_list _ _ := Return sample_profiles;
     goals_list _ _ _ := Return sample_goals;
     segments_list := Raise (TypeError "Got an unexpected keyword argument") |}.

(** C5 on the refused web properties call (one diagnostic line with 403 and
    the reason ends the run), on expired credentials at the first call, and
    on a query error at the last. *)
Lemma failed_call_aborts_with_one_diagnostic_witness :
  (exists before,
      traverse_hiearchy forbidden_service
      = ((before ++ [Called (WebpropertiesList (VStr "A1"))
                       (Raise (HttpError 403 "insufficient permission"))])%list,
         Raise (HttpError 403 "insufficient permission"))
      /\ main forbidden_service
         = ((before
               ++ [ Called (WebpropertiesList (VStr "A1"))
                      (Raise (HttpError 403 "insufficient permission"));
                    Printed "Arg, there was an API error : 403 : insufficient permission" ])%list,
            Return tt))
  /\ (exists before,
         traverse_hiearchy expired_service
         = ((before ++ [Called AccountsList (Raise AccessTokenRefreshError)])%list,
            Raise AccessTokenRefreshError)
         /\ main expired_service
            = ((before
                  ++ [ Called AccountsList (Raise AccessTokenRefreshError);
                       Printed "The credentials have been revoked or expired, please re-runthe application to re-authorize" ])%list,
               Return tt))
  /\ (exists before,
         traverse_hiearchy rejecting_service
         = ((before ++ [Called SegmentsList
                          (Raise (TypeError "Got an unexpected keyword argument"))])%list,
            Raise (TypeError "Got an unexpected keyword argument"))
         /\ main rejecting_service
            = ((before
                  ++ [ Called SegmentsList
                         (Raise (TypeError "Got an unexpected keyword argument"));
                       Printed "There was an error in constructing your query : Got an unexpected keyword argument" ])%list,
               Return tt)).
Proof.
  split; [| split].
  - apply (proj1 (failed_call_aborts_with_one_diagnostic forbidden_service)
             (WebpropertiesList (VStr "A1")) (HttpError 403 "insufficient permission")).
    + find_event.
    + exact (reported_api 403 "insufficient permission").
  - apply (proj1 (failed_call_aborts_with_one_diagnostic expired_service)
             AccountsList AccessTokenRefreshError).
    + find_event.
    + exact reported_credentials.
  - apply (proj1 (failed_call_aborts_with_one_diagnostic rejecting_service)
             SegmentsList (TypeError "Got an unexpected keyword argument")).
    + find_event.
    + exact (reported_query "Got an unexpected keyword argument").
Defined.

(** *** A run with no account *)

(** A service with no account. *)
Definition empty_service : Service :=
  {| accounts_list := Return (VDict [("items", VList [])]);
     webproperties_list _ := Return sample_webproperties;
     profiles_list _ _ := Return sample_profiles;
     goals_list _ _ _ := Return sample_goals;
     segments_list := Return sample_segments |}.

(** * Further properties of the formatters *)

(** ** Items are printed in the order received *)

Lemma for_each_log {E} (l : list value) (body : value -> M E unit) :
  (forall x, In x l -> result (body x) = Return tt) ->
  for_each l body = (flat_map (fun x => log (body x)) l, Return tt).
Proof.
  induction l as [| x rest IH]; intros H; [reflexivity |].
  cbn [for_each flat_map].
  assert (Hx : body x = (log (body x), Return tt)).
  { specialize (H x (or_introl eq_refl)). destruct (body x) as [lx rx].
    cbn [result log fst snd] in *. subst rx. reflexivity. }
  rewrite Hx at 1. rewrite bind_return, IH by (intros y Hy; apply H; right; exact Hy).
  reflexivity.
Qed.

Lemma forallb_returns (ok : value -> bool) (body : value -> P unit) (l : list value) :
  (forall x, ok x = true -> result (body x) = Return tt) ->
  forallb ok l = true ->
  forall x, In x l -> result (body x) = Return tt.
Proof.
  intros B H x Hx. apply B. rewrite forallb_forall in H. apply H. exact Hx.
Qed.

(** The sentinel of a hierarchy formatter, printed only after an empty
    list. *)
Definition sentinel_after (sentinel : string) (items : list value) : list string :=
  match items with
  | [] => [sentinel ++ newline]
  | _ :: _ => []
  end.

Lemma collection_items (header sentinel : string) (body : value -> P unit)
      (d : list (string * value)) (items : list value) :
  dict_lookup "items" d = Some (VList items) ->
  (forall x, In x items -> result (body x) = Return tt) ->
  collection header sentinel body (VDict d)
  = ((header :: pagination_lines set_and_truthy d)
       ++ [EmptyString]
       ++ flat_map (fun x => log (body x)) items
       ++ sentinel_after sentinel items, Return tt)%list.
Proof.
  intros L B. unfold collection, print, print_blank, emit.
  rewrite print_pagination_info_dict, py_get_dict, py_get_default_dict.
  unfold dict_get. rewrite L, !bind_ret_l, for_in_list, (for_each_log _ _ B).
  rewrite !bind_return. cbn [log result fst snd].
  destruct items as [| x rest]; cbn [truthy negb sentinel_after];
    cbn [log result fst snd ret]; rewrite <- ?app_assoc; reflexivity.
Qed.

Lemma print_accounts_body_shape (x : value) :
  account_ok x = true ->
  length (log (print_accounts_body x)) = 9
  /\ last (log (print_accounts_body x)) "?" = EmptyString.
Proof.
  unfold account_ok, has_object. destruct x as [ | | | | | | a]; try discriminate.
  intros H. unfold print_accounts_body. rewrite py_get_dict, bind_ret_l.
  object_field H. rewrite !print_field_dict. split; reflexivity.
Qed.

Lemma print_webproperties_body_shape (x : value) :
  webproperty_ok x = true ->
  length (log (print_webproperties_body x)) = 13
  /\ last (log (print_webproperties_body x)) "?" = EmptyString.
Proof.
  unfold webproperty_ok, has_object. destruct x as [ | | | | | | a]; try discriminate.
  intros H. apply andb_true_iff in H. destruct H as [H1 H2].
  unfold print_webproperties_body. rewrite !py_get_dict, !bind_ret_l.
  object_field H1. object_field H2. rewrite !print_field_dict. split; reflexivity.
Qed.

Lemma print_profiles_body_shape (x : value) :
  profile_ok x = true ->
  length (log (print_profiles_body x)) = 20
  /\ last (log (print_profiles_body x)) "?" = EmptyString.
Proof.
  unfold profile_ok, has_object. destruct x as [ | | | | | | a]; try discriminate.
  intros H. apply andb_true_iff in H. destruct H as [H1 H2].
  unfold print_profiles_body. rewrite !py_get_dict, !bind_ret_l.
  object_field H1. object_field H2. rewrite !print_field_dict. split; reflexivity.
Qed.

(** The four hierarchy formatters, on a response whose items are a list of
    objects with the link sub-objects each formatter reads, print their
    header, the pagination block, a blank line, then the lines of every item
    in the order received, and the sentinel only when the list is empty;
    every item's lines end with a blank line. *)
Theorem hierarchy_items_in_order (d : list (string * value)) (items : list value) :
  dict_lookup "items" d = Some (VList items) ->
  (forallb account_ok items = true ->
   print_accounts (VDict d)
   = (("------ Account Collection -------" :: pagination_lines set_and_truthy d)
        ++ [EmptyString]
        ++ flat_map (fun x => log (print_accounts_body x)) items
        ++ sentinel_after "No accounts found." items, Return tt)%list
   /\ forall x, In x items ->
                length (log (print_accounts_body x)) = 9
                /\ last (log (print_accounts_body x)) "?" = EmptyString)
  /\ (forallb webproperty_ok items = true ->
      print_webproperties (VDict d)
      = (("------ Web Properties Collection -------" :: pagination_lines set_and_truthy d)
           ++ [EmptyString]
           ++ flat_map (fun x => log (print_webproperties_body x)) items
           ++ sentinel_after "No webproperties found." items, Return tt)%list
      /\ forall x, In x items ->
                   length (log (print_webproperties_body x)) = 13
                   /\ last (log (print_webproperties_body x)) "?" = EmptyString)
  /\ (forallb profile_ok items = true ->
      print_profiles (VDict d)
      = (("------ Profiles Collection -------" :: pagination_lines set_and_truthy d)
           ++ [EmptyString]
           ++ flat_map (fun x => log (print_profiles_body x)) items
           ++ sentinel_after "No profiles found." items, Return tt)%list
      /\ forall x, In x items ->
                   length (log (print_profiles_body x)) = 20
                   /\ last (log (print_profiles_body x)) "?" = EmptyString)
  /\ (forallb goal_ok items = true ->
      print_goals (VDict d)
      = (("------ Goals Collection -------" :: pagination_lines set_and_truthy d)
           ++ [EmptyString]
           ++ flat_map (fun x => log (print_goals_body x)) items
           ++ sentinel_after "No goals found." items, Return tt)%list).
Proof.
  intros L. split; [| split; [| split]]; intros H.
  - split.
    + rewrite print_accounts_collection. apply collection_items; [exact L |].
      apply (forallb_returns account_ok); [exact print_accounts_body_returns | exact H].
    + intros x Hx. apply print_accounts_body_shape.
      rewrite forallb_forall in H. apply H. exact Hx.
  - split.
    + rewrite print_webproperties_collection. apply collection_items; [exact L |].
      apply (forallb_returns webproperty_ok);
        [exact print_webproperties_body_returns | exact H].
    + intros x Hx. apply print_webproperties_body_shape.
      rewrite forallb_forall in H. apply H. exact Hx.
  - split.
    + rewrite print_profiles_collection. apply collection_items; [exact L |].
      apply (forallb_returns profile_ok); [exact print_profiles_body_returns | exact H].
    + intros x Hx. apply print_profiles_body_shape.
      rewrite forallb_forall in H. apply H. exact Hx.
  - rewrite print_goals_collection. apply collection_items; [exact L |].
    apply (forallb_returns goal_ok); [exact print_goals_body_returns | exact H].
Qed.

(** The web properties and profiles of the sample run, through
    [hierarchy_items_in_order]: 1 + 3 + 1 + 2 * 13 lines, and 1 + 3 + 1 + 20
    lines. *)
Lemma hierarchy_items_in_order_witness :
  (length (log (print_webproperties sample_webproperties)) = 31
   /\ result (print_webproperties sample_webproperties) = Return tt)
  /\ (length (log (print_profiles sample_profiles)) = 25
      /\ result (print_profiles sample_profiles) = Return tt).
Proof.
  split.
  - unfold sample_webproperties.
    rewrite (proj1 (proj1 (proj2 (hierarchy_items_in_order
                                    [("items", VList [sample_item "W1"; sample_item "W2"])]
                                    [sample_item "W1"; sample_item "W2"] eq_refl))
                      eq_refl)).
    split; reflexivity.
  - unfold sample_profiles.
    rewrite (proj1 (proj1 (proj2 (proj2 (hierarchy_items_in_order
                                           [("items", VList [sample_item "P1"])]
                                           [sample_item "P1"] eq_refl)))
                      eq_refl)).
    split; reflexivity.
Defined.

(** The lines of one segment. *)
Definition segment_lines (segment : list (string * value)) : list string :=
  [ labelled "Segment ID = " segment "id";
    labelled "Kind       = " segment "kind";
    labelled "Self Link  = " segment "selfLink";
    labelled "Name       = " segment "name";
    labelled "Definition = " segment "definition";
    labelled "Created    = " segment "created";
    labelled "Updated    = " segment "updated";
    EmptyString ].

(** [print_segments], on a response whose items are any list of objects,
    never raises: it prints its header, the pagination block, a blank line
    and the eight lines of every segment in the order received, a missing
    field as None, and nothing after the last segment. *)
Theorem segments_printed_in_order (d : list (string * value))
        (segments : list (list (string * value))) :
  dict_lookup "items" d = Some (VList (map VDict segments)) ->
  print_segments (VDict d)
  = (("------ Segments Collection -------" :: pagination_lines set_and_truthy d)
       ++ [EmptyString] ++ flat_map segment_lines segments, Return tt)%list.
Proof.
  intros L. unfold print_segments, print, print_blank, emit.
  rewrite print_pagination_info_dict, py_get_default_dict, L, bind_ret_l, for_in_list.
  rewrite (for_each_objects segment_lines)
    by (intros c; unfold print_segments_body, print_blank, emit;
        rewrite !print_field_dict; reflexivity).
  rewrite !bind_return. reflexivity.
Qed.

(** Two segments, the second with no field at all. *)
Lemma segments_printed_in_order_witness :
  print_segments (VDict [("items", VList [VDict [("id", VStr "-1"); ("name", VStr "All")];
                                           VDict []])])
  = ([ "------ Segments Collection -------"; "Items per page = None";
       "Total Results  = None"; "Start Index    = None"; EmptyString;
       "Segment ID = -1"; "Kind       = None"; "Self Link  = None"; "Name       = All";
       "Definition = None"; "Created    = None"; "Updated    = None"; EmptyString;
       "Segment ID = None"; "Kind       = None"; "Self Link  = None"; "Name       = None";
       "Definition = None"; "Created    = None"; "Updated    = None"; EmptyString ],
     Return tt).
Proof.
  rewrite (segments_printed_in_order
             [("items", VList [VDict [("id", VStr "-1"); ("name", VStr "All")]; VDict []])]
             [[("id", VStr "-1"); ("name", VStr "All")]; []] eq_refl).
  reflexivity.
Defined.

(** ** URL destination steps *)

(** The lines of one step. *)
Definition step_lines (step : list (string * value)) : list string :=
  [ labelled "Step Number  = " step "number";
    labelled "Step Name    = " step "name";
    labelled "Step URL     = " step "url" ].

(** The lines of a URL destination goal before its steps. *)
Definition url_destination_head (details : list (string * value)) : list string :=
  [ "------ Url Destination Goal -------";
    labelled "Goal URL            = " details "url";
    labelled "Case Sensitive      = " details "caseSensitive";
    labelled "Match Type          = " details "matchType";
    labelled "First Step Required = " details "firstStepRequired";
    "------ Url Destination Goal Steps -------" ].

(** The URL destination formatter prints the four fields and the steps
    header, then: with steps missing or an empty list, the one line No
    Steps Configured; with a non-empty list of step objects, the three lines
    of every step in the order received and no such line. *)
Theorem url_destination_steps (details : list (string * value)) :
  (dict_lookup "steps" details = None \/ dict_lookup "steps" details = Some (VList []) ->
   print_url_destination_goal_details (VDict details)
   = ((url_destination_head details ++ ["No Steps Configured"])%list, Return tt))
  /\ (forall step steps,
         dict_lookup "steps" details = Some (VList (map VDict (step :: steps))) ->
         print_url_destination_goal_details (VDict details)
         = ((url_destination_head details ++ flat_map step_lines (step :: steps))%list,
            Return tt)).
Proof.
  split.
  - intros H. unfold print_url_destination_goal_details, print, emit.
    rewrite !print_field_dict, py_get_dict, py_get_default_dict. unfold dict_get.
    destruct H as [-> | ->]; rewrite !bind_ret_l, for_in_list; cbn [for_each truthy negb];
      rewrite !bind_return, bind_ret_l; reflexivity.
  - intros step steps L. unfold print_url_destination_goal_details, print, emit.
    rewrite !print_field_dict, py_get_dict, py_get_default_dict. unfold dict_get.
    rewrite L, !bind_ret_l, for_in_list.
    rewrite (for_each_objects step_lines)
      by (intros c; unfold print_goal_step; rewrite !print_field_dict; reflexivity).
    rewrite !bind_return. cbn [map truthy negb log result fst snd ret].
    rewrite app_nil_r. reflexivity.
Qed.

(** A funnel of two steps, and a goal without steps. *)
Lemma url_destination_steps_witness :
  print_url_destination_goal_details
    (VDict [ ("url", VStr "/thanks");
             ("steps", VList [ VDict [("number", VInt 1); ("name", VStr "cart")];
                               VDict [("number", VInt 2); ("url", VStr "/pay")] ]) ])
  = ([ "------ Url Destination Goal -------"; "Goal URL            = /thanks";
       "Case Sensitive      = None"; "Match Type          = None";
       "First Step Required = None"; "------ Url Destination Goal Steps -------";
       "Step Number  = 1"; "Step Name    = cart"; "Step URL     = None";
       "Step Number  = 2"; "Step Name    = None"; "Step URL     = /pay" ], Return tt)
  /\ print_url_destination_goal_details (VDict [("url", VStr "/thanks")])
     = ([ "------ Url Destination Goal -------"; "Goal URL            = /thanks";
          "Case Sensitive      = None"; "Match Type          = None";
          "First Step Required = None"; "------ Url Destination Goal Steps -------";
          "No Steps Configured" ], Return tt).
Proof.
  split.
  - rewrite (proj2 (url_destination_steps
                      [ ("url", VStr "/thanks");
                        ("steps", VList [ VDict [("number", VInt 1); ("name", VStr "cart")];
                                          VDict [("number", VInt 2); ("url", VStr "/pay")] ]) ])
               [("number", VInt 1); ("name", VStr "cart")]
               [[("number", VInt 2); ("url", VStr "/pay")]] eq_refl).
    reflexivity.
  - rewrite (proj1 (url_destination_steps [("url", VStr "/thanks")]) (or_introl eq_refl)).
    reflexivity.
Defined.

(** ** Values that are not objects *)

(** What [.get] raises on a value that has no such method. *)
Definition no_get (v : value) : exn :=
  AttributeError ("'" ++ type_name v ++ "' object has no attribute 'get'").

Lemma print_field_not_object (label : string) (v : value) (key : string) :
  is_object v = false -> print_field label v key = ([], Raise (no_get v)).
Proof. destruct v; try reflexivity. discriminate. Qed.

Lemma py_get_not_object {E} (v : value) (key : string) :
  is_object v = false -> @py_get E v key = ([], Raise (no_get v)).
Proof. destruct v; try reflexivity. discriminate. Qed.

Definition detail_header (kind : detail_kind) : string :=
  match kind with
  | UrlDestination => "------ Url Destination Goal -------"
  | VisitTimeOnSite => "------ Visit Time On Site Goal -------"
  | VisitNumPages => "------ Visit Num Pages Goal -------"
  | Event => "------ Event Goal -------"
  end.

Lemma detail_formatter_not_object (kind : detail_kind) (v : value) :
  is_object v = false ->
  detail_formatter kind v = ([detail_header kind], Raise (no_get v)).
Proof.
  intros H. destruct kind; cbn [detail_formatter detail_header];
    [ unfold print_url_destination_goal_details
    | unfold print_visit_time_on_site_goal_details
    | unfold print_visit_num_pages_goal_details
    | unfold print_event_goal_details ];
    unfold print, emit; rewrite (print_field_not_object _ _ _ H); reflexivity.
Qed.

(** A goal whose dispatched detail field is truthy but not an object (a
    non-empty string or list, a number, true) gets the header of that detail
    section printed and then AttributeError: the detail formatter prints its
    header before its first lookup. *)
Theorem detail_that_is_not_an_object (d : list (string * value)) (kind : detail_kind) :
  select_detail set_and_truthy d = Some kind ->
  is_object (dict_get d (detail_key kind)) = false ->
  print_goal_details (VDict d)
  = ([detail_header kind], Raise (no_get (dict_get d (detail_key kind)))).
Proof.
  intros S N. rewrite print_goal_details_dispatch. unfold dispatch. rewrite S.
  apply detail_formatter_not_object. exact N.
Qed.

(** An event detail given as a list instead of an object. *)
Lemma detail_that_is_not_an_object_witness :
  print_goal_details
    (VDict [("visitNumPagesDetails", VNone); ("eventDetails", VList [VStr "CATEGORY"])])
  = ([ "------ Event Goal -------" ],
     Raise (AttributeError "'list' object has no attribute 'get'")).
Proof.
  apply (detail_that_is_not_an_object
           [("visitNumPagesDetails", VNone); ("eventDetails", VList [VStr "CATEGORY"])]
           Event); reflexivity.
Defined.

(** A response that is not an object (null, a list, a string, a number):
    the pagination printer raises AttributeError before printing anything,
    so every collection formatter prints its header alone and raises. *)
Theorem response_that_is_not_an_object (response : value) :
  is_object response = false ->
  print_pagination_info response = ([], Raise (no_get response))
  /\ print_accounts response
     = (["------ Account Collection -------"], Raise (no_get response))
  /\ print_webproperties response
     = (["------ Web Properties Collection -------"], Raise (no_get response))
  /\ print_profiles response
     = (["------ Profiles Collection -------"], Raise (no_get response))
  /\ print_goals response
     = (["------ Goals Collection -------"], Raise (no_get response))
  /\ print_segments response
     = (["------ Segments Collection -------"], Raise (no_get response)).
Proof.
  intros H.
  assert (Pg : print_pagination_info response = ([], Raise (no_get response))).
  { unfold print_pagination_info. rewrite (print_field_not_object _ _ _ H). reflexivity. }
  unfold print_accounts, print_webproperties, print_profiles, print_goals, print_segments,
    print, emit.
  rewrite Pg. repeat split.
Qed.

(** A null response. *)
Lemma response_that_is_not_an_object_witness :
  print_segments VNone
  = ([ "------ Segments Collection -------" ],
     Raise (AttributeError "'NoneType' object has no attribute 'get'")).
Proof. apply (response_that_is_not_an_object VNone eq_refl). Defined.

(** ** Output is cut at the first malformed item *)

Lemma for_each_stops {E} (good : list value) (bad : value) (rest : list value)
      (body : value -> M E unit) (e : exn) :
  (forall x, In x good -> result (body x) = Return tt) ->
  result (body bad) = Raise e ->
  for_each (good ++ bad :: rest) body
  = ((flat_map (fun x => log (body x)) good ++ log (body bad))%list, Raise e).
Proof.
  intros G B. induction good as [| x good' IH].
  - cbn [app flat_map]. apply for_each_raises_first. exact B.
  - cbn [app for_each flat_map].
    assert (Hx : body x = (log (body x), Return tt)).
    { specialize (G x (or_introl eq_refl)). destruct (body x) as [lx rx].
      cbn [result log fst snd] in *. subst rx. reflexivity. }
    rewrite Hx at 1. rewrite bind_return, IH by (intros y Hy; apply G; right; exact Hy).
    cbn [log result fst snd]. rewrite <- app_assoc. reflexivity.
Qed.

Lemma collection_stops (header sentinel : string) (body : value -> P unit)
      (d : list (string * value)) (good : list value) (bad : value) (rest : list value)
      (e : exn) :
  dict_lookup "items" d = Some (VList (good ++ bad :: rest)) ->
  (forall x, In x good -> result (body x) = Return tt) ->
  result (body bad) = Raise e ->
  collection header sentinel body (VDict d)
  = ((header :: pagination_lines set_and_truthy d)
       ++ [EmptyString] ++ flat_map (fun x => log (body x)) good ++ log (body bad),
     Raise e)%list.
Proof.
  intros L G B. unfold collection, print, print_blank, emit.
  rewrite print_pagination_info_dict, py_get_default_dict, L, bind_ret_l, for_in_list.
  rewrite (for_each_stops _ _ _ _ _ G B), bind_raise, !bind_return.
  cbn [log result fst snd]. rewrite <- ?app_assoc. reflexivity.
Qed.

(** When an item of the list lacks the link the formatter reads, the
    formatter prints the items before it in full, the lines of that item up
    to the link, then raises AttributeError: no later item is printed and no
    sentinel.  For an account that is its first six lines, for a goal its
    first thirteen. *)
Theorem output_cut_at_item_without_link (d : list (string * value))
        (good : list value) (bad : list (string * value)) (rest : list value) :
  dict_lookup "items" d = Some (VList (good ++ VDict bad :: rest)) ->
  (forallb account_ok good = true ->
   dict_lookup "childLink" bad = None ->
   print_accounts (VDict d)
   = (("------ Account Collection -------" :: pagination_lines set_and_truthy d)
        ++ [EmptyString]
        ++ flat_map (fun x => log (print_accounts_body x)) good
        ++ [ labelled "Account ID      = " bad "id";
             labelled "Kind            = " bad "kind";
             labelled "Self Link       = " bad "selfLink";
             labelled "Account Name    = " bad "name";
             labelled "Created         = " bad "created";
             labelled "Updated         = " bad "updated" ],
      Raise (no_get VNone))%list)
  /\ (forallb goal_ok good = true ->
      dict_lookup "parentLink" bad = None ->
      print_goals (VDict d)
      = (("------ Goals Collection -------" :: pagination_lines set_and_truthy d)
           ++ [EmptyString]
           ++ flat_map (fun x => log (print_goals_body x)) good
           ++ [ labelled "Goal ID     = " bad "id";
                labelled "Kind        = " bad "kind";
                labelled "Self Link        = " bad "selfLink";
                labelled "Account ID               = " bad "accountId";
                labelled "Web Property ID          = " bad "webPropertyId";
                labelled "Internal Web Property ID = " bad "internalWebPropertyId";
                labelled "Profile ID               = " bad "profileId";
                labelled "Goal Name   = " bad "name";
                labelled "Goal Value  = " bad "value";
                labelled "Goal Active = " bad "active";
                labelled "Goal Type   = " bad "type";
                labelled "Created     = " bad "created";
                labelled "Updated     = " bad "updated" ],
         Raise (no_get VNone))%list).
Proof.
  intros L. split; intros G B.
  - assert (R : print_accounts_body (VDict bad)
                = ([ labelled "Account ID      = " bad "id";
                     labelled "Kind            = " bad "kind";
                     labelled "Self Link       = " bad "selfLink";
                     labelled "Account Name    = " bad "name";
                     labelled "Created         = " bad "created";
                     labelled "Updated         = " bad "updated" ], Raise (no_get VNone))).
    { assert (N : dict_get bad "childLink" = VNone) by (unfold dict_get; rewrite B; reflexivity).
      unfold print_accounts_body. rewrite !print_field_dict, py_get_dict, bind_ret_l, N.
      reflexivity. }
    rewrite print_accounts_collection.
    rewrite (collection_stops _ _ _ _ _ _ _ (no_get VNone) L
               (forallb_returns account_ok _ _ print_accounts_body_returns G))
      by (rewrite R; reflexivity).
    rewrite R. reflexivity.
  - assert (R : print_goals_body (VDict bad)
                = ([ labelled "Goal ID     = " bad "id";
                     labelled "Kind        = " bad "kind";
                     labelled "Self Link        = " bad "selfLink";
                     labelled "Account ID               = " bad "accountId";
                     labelled "Web Property ID          = " bad "webPropertyId";
                     labelled "Internal Web Property ID = " bad "internalWebPropertyId";
                     labelled "Profile ID               = " bad "profileId";
                     labelled "Goal Name   = " bad "name";
                     labelled "Goal Value  = " bad "value";
                     labelled "Goal Active = " bad "active";
                     labelled "Goal Type   = " bad "type";
                     labelled "Created     = " bad "created";
                     labelled "Updated     = " bad "updated" ], Raise (no_get VNone))).
    { assert (N : dict_get bad "parentLink" = VNone) by (unfold dict_get; rewrite B; reflexivity).
      unfold print_goals_body, print_goals_fields.
      rewrite !print_field_dict, py_get_dict, bind_ret_l, N. reflexivity. }
    rewrite print_goals_collection.
    rewrite (collection_stops _ _ _ _ _ _ _ (no_get VNone) L
               (forallb_returns goal_ok _ _ print_goals_body_returns G))
      by (rewrite R; reflexivity).
    rewrite R. reflexivity.
Qed.

(** Three accounts, the second without childLink: the first is printed in
    full, six lines of the second, nothing of the third. *)
Lemma output_cut_at_item_without_link_witness :
  result (print_accounts
            (VDict [("items", VList [sample_item "A1"; VDict [("id", VStr "A2")];
                                     sample_item "A3"])]))
  = Raise (AttributeError "'NoneType' object has no attribute 'get'")
  /\ length (log (print_accounts
                    (VDict [("items", VList [sample_item "A1"; VDict [("id", VStr "A2")];
                                             sample_item "A3"])])))
     = 20.
Proof.
  rewrite (proj1 (output_cut_at_item_without_link
                    [("items", VList [sample_item "A1"; VDict [("id", VStr "A2")];
                                      sample_item "A3"])]
                    [sample_item "A1"] [("id", VStr "A2")] [sample_item "A3"] eq_refl)
             eq_refl eq_refl).
  split; reflexivity.
Defined.

(** * Further properties of the walker *)

(** ** The order of the list calls *)

(** The collection a request lists. *)
Inductive collection_name : Type :=
| Accounts
| Webproperties
| Profiles
| Goals
| Segments.

Definition listed (rq : request) : collection_name :=
  match rq with
  | AccountsList => Accounts
  | WebpropertiesList _ => Webproperties
  | ProfilesList _ _ => Profiles
  | GoalsList _ _ _ => Goals
  | SegmentsList => Segments
  end.

(** The collections a run listed, in order. *)
Definition listings (run : list event) : list collection_name :=
  flat_map (fun ev => match ev with
                      | Called rq _ => [listed rq]
                      | Printed _ => []
                      end) run.

Lemma listings_app (l l' : list event) :
  listings (l ++ l') = (listings l ++ listings l')%list.
Proof. apply flat_map_app. Qed.

Lemma listings_texts (lines : list string) : listings (map Printed lines) = [].
Proof. induction lines as [| s rest IH]; [reflexivity | exact IH]. Qed.

Lemma listings_bind {A B} (m : M event A) (f : A -> M event B) :
  listings (log (bind m f))
  = (listings (log m)
       ++ match result m with
          | Return a => listings (log (f a))
          | Raise _ => []
          end)%list.
Proof.
  destruct m as [l [a | e]].
  - rewrite bind_return. cbn [log result fst snd]. apply listings_app.
  - rewrite bind_raise. cbn [log result fst snd]. rewrite app_nil_r. reflexivity.
Qed.

Lemma listings_show {A} (p : P A) : listings (log (show p)) = [].
Proof. rewrite log_show. apply listings_texts. Qed.

Lemma listings_py_get (obj : value) (key : string) :
  listings (log (@py_get event obj key)) = [].
Proof. rewrite log_py_get. reflexivity. Qed.

Lemma listings_py_getitem0 (v : value) : listings (log (@py_getitem0 event v)) = [].
Proof. rewrite log_py_getitem0. reflexivity. Qed.

Lemma listings_main (service : Service) :
  listings (log (main service)) = listings (log (traverse_hiearchy service)).
Proof.
  unfold main, try_except.
  destruct (traverse_hiearchy service) as [l [u | e]]; [reflexivity |].
  destruct (diagnostic e); [| reflexivity].
  cbn [log fst show lift print emit map]. rewrite listings_app, app_nil_r. reflexivity.
Qed.

(** The walks down the hierarchy, and the runs, the walker can make. *)
Definition possible_walks : list (list collection_name) :=
  [ [Accounts];
    [Accounts; Webproperties];
    [Accounts; Webproperties; Profiles];
    [Accounts; Webproperties; Profiles; Goals] ].

Definition possible_listings : list (list collection_name) :=
  (possible_walks ++ map (fun walk => walk ++ [Segments]) possible_walks)%list.

Ltac listing_step :=
  rewrite listings_bind;
  rewrite ?listings_show, ?listings_py_get, ?listings_py_getitem0;
  match goal with
  | |- context [match result ?m with Return _ => _ | Raise _ => _ end] =>
      destruct (result m)
  end;
  cbn [app].

Ltac listing_found :=
  rewrite ?listings_show;
  cbn [listings flat_map log fst execute ret listed app];
  unfold possible_walks; cbn [In];
  repeat (first [left; reflexivity | right]).

Ltac listing_auto :=
  repeat (first
            [ solve [listing_found]
            | match goal with
              | |- context [if truthy ?v then _ else _] => destruct (truthy v)
              end
            | listing_step ]).

Lemma walk_hierarchy_listings (service : Service) :
  In (listings (log (walk_hierarchy service))) possible_walks.
Proof. unfold walk_hierarchy. listing_auto. Qed.

Lemma list_segments_listings (service : Service) :
  listings (log (list_segments service)) = [Segments].
Proof.
  unfold list_segments. rewrite listings_bind.
  destruct (result (execute service SegmentsList));
    [rewrite listings_show |]; reflexivity.
Qed.

(** Whatever the service answers, a run of the program lists the accounts
    first, then goes down webproperties, profiles and goals in that order
    for as long as it goes, and lists the segments last or not at all: no
    collection twice, so no page after the first, and never more than five
    calls. *)
Theorem calls_follow_the_hierarchy (service : Service) :
  In (listings (log (main service))) possible_listings
  /\ length (listings (log (main service))) <= 5
  /\ NoDup (listings (log (main service)))
  /\ hd_error (listings (log (main service))) = Some Accounts.
Proof.
  assert (H : In (listings (log (main service))) possible_listings).
  { rewrite listings_main, traverse_hiearchy_split, listings_bind, list_segments_listings.
    pose proof (walk_hierarchy_listings service) as W.
    unfold possible_listings. apply in_or_app.
    destruct (result (walk_hierarchy service)).
    - right. exact (in_map (fun walk => walk ++ [Segments])%list _ _ W).
    - left. rewrite app_nil_r. exact W. }
  split; [exact H |].
  unfold possible_listings, possible_walks in H. cbn [map app In] in H.
  repeat (destruct H as [<- | H]; [repeat split; [cbn; lia | repeat constructor; cbn; intuition discriminate] |]).
  destruct H.
Qed.

(** ** A formatter that raises ends the run *)

Lemma show_raises {A} (p : P A) (e : exn) :
  result p = Raise e -> show p = (map Printed (log p), Raise e).
Proof. intros H. unfold show, lift. fold (result p). rewrite H. reflexivity. Qed.

Lemma traverse_accounts_formatter_raises (service : Service) (accounts : value) (e : exn) :
  accounts_list service = Return accounts ->
  result (print_accounts accounts) = Raise e ->
  traverse_hiearchy service
  = (Called AccountsList (Return accounts) :: map Printed (log (print_accounts accounts)),
     Raise e).
Proof.
  intros Ha Hp. unfold traverse_hiearchy, execute. cbn [respond].
  rewrite Ha, bind_after, (show_raises _ _ Hp), !bind_raise. reflexivity.
Qed.

(** When the accounts formatter raises, nothing more is fetched or printed
    by the traversal: the run is the accounts call and what the formatter
    had printed.  [main] then appends the diagnostic and returns if the
    exception is of a kind it names; any other exception, such as the
    AttributeError of a missing link, is raised by [main] itself. *)
Theorem accounts_formatter_error_ends_the_run (service : Service) (accounts : value)
        (e : exn) :
  accounts_list service = Return accounts ->
  result (print_accounts accounts) = Raise e ->
  traverse_hiearchy service
  = (Called AccountsList (Return accounts) :: map Printed (log (print_accounts accounts)),
     Raise e)
  /\ main service
     = match diagnostic e with
       | Some text =>
           ((Called AccountsList (Return accounts)
               :: map Printed (log (print_accounts accounts))) ++ [Printed text],
            Return tt)%list
       | None =>
           (Called AccountsList (Return accounts)
              :: map Printed (log (print_accounts accounts)), Raise e)
       end.
Proof.
  intros Ha Hp.
  pose proof (traverse_accounts_formatter_raises _ _ _ Ha Hp) as T.
  split; [exact T |].
  assert (R : result (traverse_hiearchy service) = Raise e) by (rewrite T; reflexivity).
  rewrite (main_after_raise _ _ R), T. reflexivity.
Qed.

(** A service whose first account has no childLink. *)
Definition linkless_service : Service :=
  {| accounts_list := Return (VDict [("items", VList [VDict [("id", VStr "A1")]])]);
     webproperties_list _ := Return sample_webproperties;
     profiles_list _ _ := Return sample_profiles;
     goals_list _ _ _ := Return sample_goals;
     segments_list := Return sample_segments |}.

(** The AttributeError of the missing childLink leaves [main]; only the
    accounts were listed. *)
Lemma accounts_formatter_error_ends_the_run_witness :
  result (main linkless_service)
  = Raise (AttributeError "'NoneType' object has no attribute 'get'")
  /\ listings (log (main linkless_service)) = [Accounts].
Proof.
  rewrite (proj2 (accounts_formatter_error_ends_the_run linkless_service
                    (VDict [("items", VList [VDict [("id", VStr "A1")]])])
                    (AttributeError "'NoneType' object has no attribute 'get'")
                    eq_refl eq_refl)).
  split; reflexivity.
Defined.

(** ** Items that cannot be iterated *)

(** The values a [for] loop cannot iterate. *)
Definition not_iterable (v : value) : bool :=
  match v with
  | VNone | VBool _ | VInt _ | VFloat _ _ => true
  | VStr _ | VList _ | VDict _ => false
  end.

Lemma print_accounts_not_iterable (d : list (string * value)) (items : value) :
  dict_lookup "items" d = Some items ->
  not_iterable items = true ->
  print_accounts (VDict d)
  = ((("------ Account Collection -------" :: pagination_lines set_and_truthy d)
        ++ [EmptyString])%list,
     Raise (TypeError ("'" ++ type_name items ++ "' object is not iterable"))).
Proof.
  intros L N. unfold print_accounts, print, print_blank, emit.
  rewrite print_pagination_info_dict, py_get_default_dict, L, bind_ret_l.
  unfold for_in.
  assert (I : @py_iter string items
              = ([], Raise (TypeError ("'" ++ type_name items ++ "' object is not iterable"))))
    by (destruct items; try discriminate N; reflexivity).
  rewrite I, !bind_raise, !bind_return. cbn [log result fst snd].
  rewrite app_nil_r. reflexivity.
Qed.

(** When the accounts response binds items to null (or to a number or a
    boolean), the loop of [print_accounts] raises TypeError after the
    header, the pagination block and the blank line; [main] catches it with
    the handler meant for list calls, so the run ends normally with the
    line There was an error in constructing your query, although no call
    failed, and nothing else is fetched. *)
Theorem items_not_iterable_reported_as_query_error (service : Service)
        (d : list (string * value)) (items : value) :
  accounts_list service = Return (VDict d) ->
  dict_lookup "items" d = Some items ->
  not_iterable items = true ->
  main service
  = ((Called AccountsList (Return (VDict d))
        :: map Printed (("------ Account Collection -------"
                           :: pagination_lines set_and_truthy d) ++ [EmptyString]))
       ++ [Printed ("There was an error in constructing your query : "
                      ++ "'" ++ type_name items ++ "' object is not iterable")],
     Return tt)%list.
Proof.
  intros Ha L N.
  pose proof (print_accounts_not_iterable d items L N) as Pa.
  assert (Hp : result (print_accounts (VDict d))
               = Raise (TypeError ("'" ++ type_name items ++ "' object is not iterable")))
    by (rewrite Pa; reflexivity).
  pose proof (traverse_accounts_formatter_raises _ _ _ Ha Hp) as T.
  assert (R : result (traverse_hiearchy service)
              = Raise (TypeError ("'" ++ type_name items ++ "' object is not iterable")))
    by (rewrite T; reflexivity).
  rewrite (main_after_raise _ _ R), T, Pa. reflexivity.
Qed.

(** A service whose accounts response has null items. *)
Definition null_items_service : Service :=
  {| accounts_list := Return (VDict [("totalResults", VInt 0); ("items", VNone)]);
     webproperties_list _ := Return sample_webproperties;
     profiles_list _ _ := Return sample_profiles;
     goals_list _ _ _ := Return sample_goals;
     segments_list := Return sample_segments |}.

Lemma items_not_iterable_reported_as_query_error_witness :
  main null_items_service
  = ([ Called AccountsList (Return (VDict [("totalResults", VInt 0); ("items", VNone)]));
       Printed "------ Account Collection -------"; Printed "Items per page = None";
       Printed "Total Results  = 0"; Printed "Start Index    = None"; Printed EmptyString;
       Printed "There was an error in constructing your query : 'NoneType' object is not iterable" ],
     Return tt).
Proof.
  rewrite (items_not_iterable_reported_as_query_error null_items_service
             [("totalResults", VInt 0); ("items", VNone)] VNone eq_refl eq_refl eq_refl).
  reflexivity.
Defined.

(** ** Going down a level *)

Lemma traverse_reaches_webproperties (service : Service) (d item : list (string * value))
      (rest : list value) :
  accounts_list service = Return (VDict d) ->
  result (print_accounts (VDict d)) = Return tt ->
  dict_lookup "items" d = Some (VList (VDict item :: rest)) ->
  exists later,
    log (traverse_hiearchy service)
    = ((Called AccountsList (Return (VDict d))
          :: map Printed (log (print_accounts (VDict d))))
         ++ Called (WebpropertiesList (dict_get item "id"))
              (webproperties_list service (dict_get item "id"))
         :: later)%list.
Proof.
  intros Ha Hp L.
  unfold traverse_hiearchy, execute. cbn [respond]. rewrite Ha, bind_after.
  rewrite (show_returns _ tt Hp), bind_after.
  rewrite !py_get_dict, bind_ret_l. unfold dict_get at 1 2. rewrite L.
  cbn [truthy]. rewrite bind_assoc, bind_ret_l. cbn [py_getitem0].
  rewrite bind_assoc, bind_ret_l, bind_assoc, py_get_dict, bind_ret_l, bind_assoc.
  destruct (webproperties_list service (dict_get item "id")) as [webproperties | e].
  - rewrite bind_after. eexists. unfold after. cbn [log fst]. reflexivity.
  - rewrite bind_raise. exists []. unfold after. cbn [log fst]. reflexivity.
Qed.

(** Whenever the accounts response has a non-empty item list and the
    accounts formatter got through it, the walker does list the web
    properties, right after the accounts section, with the id of the first
    account as it stands: an account without id makes it call with None. *)
Theorem walker_descends_with_first_id (service : Service)
        (d item : list (string * value)) (rest : list value) :
  accounts_list service = Return (VDict d) ->
  result (print_accounts (VDict d)) = Return tt ->
  dict_lookup "items" d = Some (VList (VDict item :: rest)) ->
  (exists later,
      log (traverse_hiearchy service)
      = ((Called AccountsList (Return (VDict d))
            :: map Printed (log (print_accounts (VDict d))))
           ++ Called (WebpropertiesList (dict_get item "id"))
                (webproperties_list service (dict_get item "id"))
           :: later)%list)
  /\ (dict_lookup "id" item = None ->
      In (Called (WebpropertiesList VNone) (webproperties_list service VNone))
         (log (traverse_hiearchy service))).
Proof.
  intros Ha Hp L.
  pose proof (traverse_reaches_webproperties _ _ _ _ Ha Hp L) as [later E].
  split; [exists later; exact E |].
  intros N. rewrite E. apply in_or_app. right. left.
  unfold dict_get. rewrite N. reflexivity.
Qed.

(** A service whose only account has a childLink but no id. *)
Definition anonymous_service : Service :=
  {| accounts_list := Return (VDict [("items", VList [VDict [("childLink", sample_link)]])]);
     webproperties_list a :=
       match a with
       | VNone => Raise (TypeError "Missing required parameter")
       | _ => Return sample_webproperties
       end;
     profiles_list _ _ := Return sample_profiles;
     goals_list _ _ _ := Return sample_goals;
     segments_list := Return sample_segments |}.

Lemma walker_descends_with_first_id_witness :
  In (Called (WebpropertiesList VNone) (Raise (TypeError "Missing required parameter")))
     (log (traverse_hiearchy anonymous_service)).
Proof.
  apply (proj2 (walker_descends_with_first_id anonymous_service
                  [("items", VList [VDict [("childLink", sample_link)]])]
                  [("childLink", sample_link)] [] eq_refl eq_refl eq_refl)).
  reflexivity.
Defined.

(** ** The sentinel and the walk *)

(** How every sentinel line starts, and no other line. *)
Definition starts_with_no (line : string) : bool := String.prefix "No " line.

Lemma pagination_lines_not_sentinel (d : list (string * value)) (line : string) :
  In line (pagination_lines set_and_truthy d) -> starts_with_no line = false.
Proof.
  unfold pagination_lines. rewrite !in_app_iff.
  intros [[<- | [<- | [<- | []]]] | [H | H]]; try reflexivity.
  - destruct (set_and_truthy _); [destruct H as [<- | []]; reflexivity | destruct H].
  - destruct (set_and_truthy _); [destruct H as [<- | []]; reflexivity | destruct H].
Qed.

Lemma accounts_body_not_sentinel (account : value) (line : string) :
  In line (log (print_accounts_body account)) -> starts_with_no line = false.
Proof.
  unfold print_accounts_body, print_blank, emit. intros H. do 9 next_line H. labelled_line H.
Qed.

Lemma traverse_no_items (service : Service) (d : list (string * value)) :
  accounts_list service = Return (VDict d) ->
  no_items d ->
  log (traverse_hiearchy service)
  = ((Called AccountsList (Return (VDict d))
        :: map Printed (log (print_accounts (VDict d))))
       ++ Called SegmentsList (segments_list service)
       :: match segments_list service with
          | Return segments => map Printed (log (print_segments segments))
          | Raise _ => []
          end)%list.
Proof.
  intros Ha N.
  destruct (hierarchy_sentinels d N) as [Pa _].
  assert (Hp : result (print_accounts (VDict d)) = Return tt) by (rewrite Pa; reflexivity).
  assert (F : truthy (dict_get d "items") = false)
    by (unfold dict_get; destruct N as [-> | ->]; reflexivity).
  unfold traverse_hiearchy, execute. cbn [respond]. rewrite Ha, bind_after.
  rewrite (show_returns _ tt Hp), bind_after.
  rewrite py_get_dict, bind_ret_l, F, bind_ret_l.
  destruct (segments_list service) as [segments | e].
  - rewrite bind_after. unfold after. cbn [log fst]. reflexivity.
  - rewrite bind_raise. unfold after. cbn [log fst]. reflexivity.
Qed.

(** On an accounts response whose items are missing or a list of accounts
    with their childLink, the line No accounts found. is printed exactly
    when the walker does not go on to list web properties: the formatter
    and the walker test the same thing. *)
Theorem sentinel_iff_walk_stops (service : Service) (d : list (string * value)) :
  accounts_list service = Return (VDict d) ->
  list_or_absent account_ok (dict_lookup "items" d) = true ->
  In ("No accounts found." ++ newline) (log (print_accounts (VDict d)))
  <-> ~ In Webproperties (listings (log (traverse_hiearchy service))).
Proof.
  intros Ha Ok.
  assert (Empty : no_items d ->
                  In ("No accounts found." ++ newline) (log (print_accounts (VDict d)))
                  /\ ~ In Webproperties (listings (log (traverse_hiearchy service)))).
  { intros N. split.
    - destruct (hierarchy_sentinels d N) as [-> _]. cbn [log fst].
      apply in_or_app. right. right. left. reflexivity.
    - rewrite (traverse_no_items _ _ Ha N).
      change (Called AccountsList (Return (VDict d))
                :: map Printed (log (print_accounts (VDict d))))
        with ([Called AccountsList (Return (VDict d))]
                ++ map Printed (log (print_accounts (VDict d))))%list.
      rewrite !listings_app, listings_texts.
      change (Called SegmentsList (segments_list service)
                :: match segments_list service with
                   | Return segments => map Printed (log (print_segments segments))
                   | Raise _ => []
                   end)
        with ([Called SegmentsList (segments_list service)]
                ++ match segments_list service with
                   | Return segments => map Printed (log (print_segments segments))
                   | Raise _ => []
                   end)%list.
      rewrite listings_app.
      assert (T : listings match segments_list service with
                           | Return segments => map Printed (log (print_segments segments))
                           | Raise _ => []
                           end = [])
        by (destruct (segments_list service); [apply listings_texts | reflexivity]).
      rewrite T. cbn. intuition discriminate. }
  destruct (dict_lookup "items" d) as [v |] eqn:L.
  2: { destruct (Empty (or_introl L)) as [S W]. tauto. }
  destruct v as [ | | | | | l | ]; try discriminate Ok.
  destruct l as [| x rest].
  { destruct (Empty (or_intror L)) as [S W]. tauto. }
  cbn [list_or_absent] in Ok.
  assert (Hp : print_accounts (VDict d)
               = ((("------ Account Collection -------" :: pagination_lines set_and_truthy d)
                     ++ [EmptyString]
                     ++ flat_map (fun x => log (print_accounts_body x)) (x :: rest)
                     ++ sentinel_after "No accounts found." (x :: rest))%list, Return tt)).
  { rewrite print_accounts_collection. apply collection_items; [exact L |].
    apply (forallb_returns account_ok); [exact print_accounts_body_returns | exact Ok]. }
  assert (Ox : account_ok x = true)
    by (cbn [forallb] in Ok; apply andb_true_iff in Ok; tauto).
  unfold account_ok, has_object in Ox. destruct x as [ | | | | | | item]; try discriminate Ox.
  split.
  - intros S. exfalso. rewrite Hp in S. cbn [log fst sentinel_after] in S.
    rewrite app_nil_r in S. destruct S as [S | S]; [discriminate S |].
    apply in_app_iff in S. destruct S as [S | S].
    { apply pagination_lines_not_sentinel in S. discriminate S. }
    apply in_app_iff in S. destruct S as [[S | []] | S]; [discriminate S |].
    apply in_flat_map in S. destruct S as [y [_ S]].
    apply accounts_body_not_sentinel in S. discriminate S.
  - intros W. exfalso. apply W.
    assert (R : result (print_accounts (VDict d)) = Return tt) by (rewrite Hp; reflexivity).
    destruct (traverse_reaches_webproperties _ _ _ _ Ha R L) as [later E].
    rewrite E.
    change (Called AccountsList (Return (VDict d))
              :: map Printed (log (print_accounts (VDict d))))
      with ([Called AccountsList (Return (VDict d))]
              ++ map Printed (log (print_accounts (VDict d))))%list.
    rewrite !listings_app. apply in_or_app. right. left. reflexivity.
Qed.

(** With no account the sentinel is printed and the walk stops. *)
Lemma sentinel_iff_walk_stops_witness :
  ~ In Webproperties (listings (log (traverse_hiearchy empty_service))).
Proof.
  apply (proj1 (sentinel_iff_walk_stops empty_service [("items", VList [])]
                  eq_refl eq_refl)).
  right. right. right. right. right. left. reflexivity.
Defined.

(** ** A level without items *)

Lemma dict_get_items (d : list (string * value)) (v : value) :
  dict_lookup "items" d = Some v -> dict_get d "items" = v.
Proof. intros L. unfold dict_get. rewrite L. reflexivity. Qed.

(** When the first account has web properties and the first of them has no
    profile, the run is: the accounts call and section, the web properties
    call for the first account and its section, the profiles call for the
    first web property and its section, which ends with No profiles found.,
    then the segments call (and section, when that call returns).  The
    goals are not listed. *)
Theorem walk_stops_at_empty_profiles (service : Service)
        (ad aitem : list (string * value)) (arest : list value)
        (wd witem : list (string * value)) (wrest : list value)
        (pd : list (string * value)) :
  accounts_list service = Return (VDict ad) ->
  result (print_accounts (VDict ad)) = Return tt ->
  dict_lookup "items" ad = Some (VList (VDict aitem :: arest)) ->
  webproperties_list service (dict_get aitem "id") = Return (VDict wd) ->
  result (print_webproperties (VDict wd)) = Return tt ->
  dict_lookup "items" wd = Some (VList (VDict witem :: wrest)) ->
  profiles_list service (dict_get aitem "id") (dict_get witem "id") = Return (VDict pd) ->
  no_items pd ->
  log (traverse_hiearchy service)
  = ((Called AccountsList (Return (VDict ad))
        :: map Printed (log (print_accounts (VDict ad))))
       ++ (Called (WebpropertiesList (dict_get aitem "id")) (Return (VDict wd))
             :: map Printed (log (print_webproperties (VDict wd))))
       ++ (Called (ProfilesList (dict_get aitem "id") (dict_get witem "id"))
             (Return (VDict pd))
             :: map Printed
                  (("------ Profiles Collection -------"
                      :: pagination_lines set_and_truthy pd)
                     ++ [EmptyString; ("No profiles found." ++ newline)%string]))
       ++ Called SegmentsList (segments_list service)
       :: match segments_list service with
          | Return segments => map Printed (log (print_segments segments))
          | Raise _ => []
          end)%list.
Proof.
  intros Ha Hpa La Hw Hpw Lw Hp N.
  destruct (hierarchy_sentinels pd N) as [_ [_ [Pp _]]].
  assert (Hpp : result (print_profiles (VDict pd)) = Return tt) by (rewrite Pp; reflexivity).
  assert (F : truthy (dict_get pd "items") = false)
    by (unfold dict_get; destruct N as [-> | ->]; reflexivity).
  pose proof (dict_get_items _ _ La) as Ia. pose proof (dict_get_items _ _ Lw) as Iw.
  unfold traverse_hiearchy, execute. cbn [respond]. rewrite Ha, bind_after.
  rewrite (show_returns _ tt Hpa), bind_after.
  rewrite !py_get_dict, bind_ret_l, Ia. cbn [truthy].
  rewrite bind_assoc, bind_ret_l. cbn [py_getitem0].
  rewrite bind_assoc, bind_ret_l, bind_assoc, py_get_dict, bind_ret_l, bind_assoc.
  rewrite Hw, bind_after.
  rewrite bind_assoc, (show_returns _ tt Hpw), bind_after.
  rewrite bind_assoc, !py_get_dict, bind_ret_l, Iw. cbn [truthy].
  rewrite bind_assoc, bind_ret_l. cbn [py_getitem0].
  rewrite bind_assoc, bind_ret_l, bind_assoc, py_get_dict, bind_ret_l, bind_assoc.
  rewrite Hp, bind_after.
  rewrite bind_assoc, (show_returns _ tt Hpp), bind_after.
  rewrite bind_assoc, !py_get_dict, bind_ret_l, F, bind_ret_l.
  rewrite Pp. unfold after. cbn [log fst].
  destruct (segments_list service) as [segments | e].
  - rewrite bind_after. unfold after. cbn [log fst]. rewrite <- ?app_assoc. reflexivity.
  - rewrite bind_raise. cbn [log fst]. rewrite <- ?app_assoc. reflexivity.
Qed.

(** The scenario with account A1, web property W1 and no profile. *)
Definition no_profile_service : Service :=
  {| accounts_list := Return (VDict [("items", VList [sample_item "A1"])]);
     webproperties_list _ := Return (VDict [("items", VList [sample_item "W1"])]);
     profiles_list _ _ := Return (VDict [("totalResults", VInt 0)]);
     goals_list _ _ _ := Return sample_goals;
     segments_list := Return sample_segments |}.

Lemma walk_stops_at_empty_profiles_witness :
  listings (log (traverse_hiearchy no_profile_service))
  = [Accounts; Webproperties; Profiles; Segments]
  /\ In (Printed ("No profiles found." ++ newline))
        (log (traverse_hiearchy no_profile_service)).
Proof.
  rewrite (walk_stops_at_empty_profiles no_profile_service
             [("items", VList [sample_item "A1"])]
             [("id", VStr "A1"); ("parentLink", sample_link); ("childLink", sample_link)] []
             [("items", VList [sample_item "W1"])]
             [("id", VStr "W1"); ("parentLink", sample_link); ("childLink", sample_link)] []
             [("totalResults", VInt 0)]
             eq_refl eq_refl eq_refl eq_refl eq_refl eq_refl eq_refl (or_introl eq_refl)).
  split; [reflexivity | find_event].
Defined.

(** ** The characters written *)

Lemma stdout_app (l l' : list string) : stdout (l ++ l') = stdout l ++ stdout l'.
Proof.
  unfold stdout. induction l as [| s rest IH]; [reflexivity |].
  cbn [app map].
  assert (C : forall (x : string) (xs : list string),
             String.concat EmptyString (x :: xs) = x ++ String.concat EmptyString xs).
  { intros x [| y ys]; cbn [String.concat]; [| reflexivity].
    induction x as [| c x' IHx]; [reflexivity | cbn; rewrite <- IHx; reflexivity]. }
  rewrite !C, IH.
  generalize (String.concat EmptyString (map (fun s0 => s0 ++ newline) rest)).
  generalize (String.concat EmptyString (map (fun s0 => s0 ++ newline) l')).
  generalize (s ++ newline). clear.
  intros x y z. induction x as [| c x' IHx]; [reflexivity | cbn; rewrite IHx; reflexivity].
Qed.

(** On a response without items the text a hierarchy formatter writes ends
    with a blank line, its sentinel, and one more blank line: the sentinel
    is printed with a newline of its own. *)
Theorem sentinel_is_followed_by_a_blank_line (d : list (string * value)) :
  no_items d ->
  let before (header : string) := stdout (header :: pagination_lines set_and_truthy d) in
  stdout (log (print_accounts (VDict d)))
  = before "------ Account Collection -------"
      ++ newline ++ "No accounts found." ++ newline ++ newline
  /\ stdout (log (print_webproperties (VDict d)))
     = before "------ Web Properties Collection -------"
         ++ newline ++ "No webproperties found." ++ newline ++ newline
  /\ stdout (log (print_profiles (VDict d)))
     = before "------ Profiles Collection -------"
         ++ newline ++ "No profiles found." ++ newline ++ newline
  /\ stdout (log (print_goals (VDict d)))
     = before "------ Goals Collection -------"
         ++ newline ++ "No goals found." ++ newline ++ newline.
Proof.
  intros N. cbv zeta.
  destruct (hierarchy_sentinels d N) as [-> [-> [-> ->]]].
  cbn [log fst]. rewrite !stdout_app. repeat split.
Qed.

Lemma sentinel_is_followed_by_a_blank_line_witness :
  stdout (log (print_goals (VDict [("items", VList [])])))
  = "------ Goals Collection -------" ++ newline
      ++ "Items per page = None" ++ newline
      ++ "Total Results  = None" ++ newline
      ++ "Start Index    = None" ++ newline
      ++ newline ++ "No goals found." ++ newline ++ newline.
Proof.
  rewrite (proj2 (proj2 (proj2 (sentinel_is_followed_by_a_blank_line
                                  [("items", VList [])] (or_intror eq_refl))))).
  reflexivity.
Defined.

(** * Missing links *)








(** * The segments step *)












